(** * Smart GitHub Profile Enhancer: the [App] component of [src/App.js]

    The component owns seven pieces of React state, one asynchronous handler
    ([handleAnalyze]) that performs three sequential [fetch] calls inside a
    [try / catch / finally], a copy handler, and a render function that picks
    the panels to show from the state.  The development below embeds

    - the fragment of JavaScript the component relies on (numbers as
      doubles, strings, JSON values, truthiness, property reads that throw on
      [null] / [undefined], string coercion) in [Module JS];
    - the handler as a program over two effects, state-setter calls and
      awaited network requests, with exceptions;
    - the controller (event dispatch, in-flight analyses), the render
      function, the markup of the results panel with what React accepts of
      it, and the copy handler with its timer. *)

From Stdlib Require Import String Ascii List ZArith NArith Bool Lia.
From Stdlib Require Import DecimalString DecimalZ SpecFloat.
Import ListNotations.

Local Open Scope string_scope.
Local Open Scope Z_scope.

Set Warnings "-register-all".

(** ** The JavaScript fragment *)

Module JS.

(** *** Numbers

    A number is an IEEE 754 binary64 value, in the representation of
    [SpecFloat]: a signed zero, a signed infinity, [NaN], or a sign, a
    mantissa and a binary exponent.  The definitions below build canonical
    representations only. *)
Definition number : Type := spec_float.

(** The double nearest to an integer (ties to even). *)
Definition number_of_Z (n : Z) : number := binary_normalize 53 1024 n 0 false.

(** The double nearest to [digits * 10 ^ exponent] (ties to even), which is
    how a decimal literal is read; the sign is given apart so that a zero
    keeps it. *)
Definition number_of_decimal (negative : bool) (digits exponent : Z) : number :=
  match digits with
  | Zpos p =>
      if 0 <=? exponent
      then binary_round 53 1024 negative (p * Z.to_pos (10 ^ exponent)) 0
      else SFdiv 53 1024 (S754_finite negative p 0)
                 (S754_finite false (Z.to_pos (10 ^ (- exponent))) 0)
  | _ => S754_zero negative
  end.

(** [x > 0] *)
Definition positive_number (x : number) : bool := SFltb (S754_zero false) x.

(** [!!x]: every number but the zeros and [NaN]. *)
Definition truthy_number (x : number) : bool :=
  match x with
  | S754_zero _ | S754_nan => false
  | S754_infinity _ | S754_finite _ _ _ => true
  end.

Definition same_number (x y : number) : bool :=
  match x, y with
  | S754_finite s m e, S754_finite s' m' e' =>
      Bool.eqb s s' && Pos.eqb m m' && Z.eqb e e'
  | S754_zero s, S754_zero s' => Bool.eqb s s'
  | S754_infinity s, S754_infinity s' => Bool.eqb s s'
  | S754_nan, S754_nan => true
  | _, _ => false
  end.

(** Decimal rendering of an integer. *)
Definition string_of_Z (n : Z) : string := NilZero.string_of_int (Z.to_int n).

(** The number of decimal digits of a positive integer. *)
Definition decimal_digits (n : Z) : Z :=
  Z.of_nat (String.length (string_of_Z n)).

(** The [n] with [10 ^ (n - 1) <= num / den < 10 ^ n], for a positive
    fraction. *)
Definition decimal_exponent (num den : Z) : Z :=
  if den <=? num then decimal_digits (num / den)
  else 1 - decimal_digits ((den - 1) / num).

(** The shortest decimal that reads back as the positive double [x], whose
    value is [num / den] and lies between [10 ^ (n - 1)] and [10 ^ n]: the
    integer its digits spell and the position of its decimal point.  With
    [k] digits the two candidates are the decimals next to [x] on either
    side; of two that read back as [x] the closer one is taken, the even one
    when they are as close.  [fuel] more lengths are tried after [k]. *)
Fixpoint shortest (fuel : nat) (x : number) (num den n k : Z) : Z * Z :=
  let scale := k - n in
  let s := if 0 <=? scale then (num * 10 ^ scale) / den
           else num / (den * 10 ^ (- scale)) in
  let below := same_number (number_of_decimal false s (n - k)) x in
  let above := same_number (number_of_decimal false (s + 1) (n - k)) x in
  let twice := if 0 <=? scale then 2 * num * 10 ^ scale else 2 * num in
  let middle := if 0 <=? scale then (2 * s + 1) * den
                else (2 * s + 1) * den * 10 ^ (- scale) in
  let upper := match twice ?= middle with
               | Gt => true
               | Eq => Z.odd s
               | Lt => false
               end in
  let chosen := if below && above then (if upper then s + 1 else s)
                else if below then s else s + 1 in
  if below || above then
    if chosen =? 10 ^ k then (1, n + 1) else (chosen, n)
  else
    match fuel with
    | O => (s, n)
    | S fuel' => shortest fuel' x num den n (k + 1)
    end.

Fixpoint zeros (n : nat) : string :=
  match n with
  | O => ""
  | S m => String "0" (zeros m)
  end.

(** The text of a positive finite double whose shortest decimal has the
    digits [text] and the decimal point at position [n]. *)
Definition decimal_text (text : string) (n : Z) : string :=
  let k := Z.of_nat (String.length text) in
  if (k <=? n) && (n <=? 21) then text ++ zeros (Z.to_nat (n - k))
  else if (0 <? n) && (n <=? 21) then
    substring 0 (Z.to_nat n) text ++ "."
    ++ substring (Z.to_nat n) (Z.to_nat (k - n)) text
  else if (-6 <? n) && (n <=? 0) then "0." ++ zeros (Z.to_nat (- n)) ++ text
  else
    let exponent := (if n - 1 <? 0 then "-" else "+")
                    ++ string_of_Z (Z.abs (n - 1)) in
    if k =? 1 then text ++ "e" ++ exponent
    else substring 0 1 text ++ "."
         ++ substring 1 (Z.to_nat (k - 1)) text ++ "e" ++ exponent.

(** [String(x)] for a number: [Number::toString] of the language
    specification, in radix 10. *)
Definition Number_toString (x : number) : string :=
  match x with
  | S754_nan => "NaN"
  | S754_zero _ => "0"
  | S754_infinity s => if s then "-Infinity" else "Infinity"
  | S754_finite s m e =>
      match binary_round 53 1024 false m e with
      | S754_finite _ m' e' =>
          let num := if 0 <=? e' then Zpos m' * 2 ^ e' else Zpos m' in
          let den := if 0 <=? e' then 1 else 2 ^ (- e') in
          let '(digits, n) :=
            shortest 17 (S754_finite false m' e') num den
                     (decimal_exponent num den) 1 in
          (if s then "-" else "") ++ decimal_text (string_of_Z digits) n
      | S754_infinity _ => if s then "-Infinity" else "Infinity"
      | _ => "0"
      end
  end.

(** *** Strings

    A string is a sequence of 16-bit code units.  It is held as the bytes
    of its UTF-8 form, a surrogate that is not half of a pair as the three
    bytes of its own code point: the ASCII texts of the component are then
    themselves, appending to them is [++], and a search for an ASCII text is
    a search among the bytes. *)

Definition byte (n : N) : ascii := ascii_of_N n.

(** The UTF-8 bytes of a code point. *)
Definition utf8 (cp : N) : string :=
  (if cp <? 128 then String (byte cp) ""
   else if cp <? 2048 then
     String (byte (192 + cp / 64)) (String (byte (128 + cp mod 64)) "")
   else if cp <? 65536 then
     String (byte (224 + cp / 4096))
            (String (byte (128 + (cp / 64) mod 64))
                    (String (byte (128 + cp mod 64)) ""))
   else
     String (byte (240 + cp / 262144))
            (String (byte (128 + (cp / 4096) mod 64))
                    (String (byte (128 + (cp / 64) mod 64))
                            (String (byte (128 + cp mod 64)) ""))))%N.

(** The code units of a string. *)
Fixpoint code_units (s : string) : list N :=
  match s with
  | EmptyString => []
  | String a rest =>
      let n := N_of_ascii a in
      (if n <? 224 then
         match rest with
         | String b rest' =>
             if (192 <=? n) then ((n - 192) * 64 + (N_of_ascii b - 128)) :: code_units rest'
             else n :: code_units rest
         | EmptyString => [n]
         end
       else if n <? 240 then
         match rest with
         | String b (String c rest') =>
             ((n - 224) * 4096 + (N_of_ascii b - 128) * 64 + (N_of_ascii c - 128))
               :: code_units rest'
         | _ => n :: code_units rest
         end
       else
         match rest with
         | String b (String c (String d rest')) =>
             let cp := (n - 240) * 262144 + (N_of_ascii b - 128) * 4096
                       + (N_of_ascii c - 128) * 64 + (N_of_ascii d - 128) in
             (55296 + (cp - 65536) / 1024) :: (56320 + (cp - 65536) mod 1024)
               :: code_units rest'
         | _ => n :: code_units rest
         end)%N
  end.

(** The string made of the given code units: a high surrogate followed by
    a low one is one code point. *)
Fixpoint string_of_units (units : list N) : string :=
  match units with
  | [] => ""
  | u :: rest =>
      match rest with
      | low :: rest' =>
          if ((55296 <=? u) && (u <? 56320) && (56320 <=? low) && (low <? 57344))%N
          then utf8 (65536 + (u - 55296) * 1024 + (low - 56320))%N
               ++ string_of_units rest'
          else utf8 u ++ string_of_units rest
      | [] => utf8 u
      end
  end.

(** *** Values

    Values that can flow through the component: what [JSON.parse] and
    [Response.json] produce, plus [undefined] (the result of reading an absent
    property).  Objects keep their members in source order. *)
Inductive value : Type :=
| JUndefined
| JNull
| JBool (b : bool)
| JNum (x : number)
| JStr (s : string)
| JArr (items : list value)
| JObj (members : list (string * value)).

(** Thrown values.  Everything this component can catch is an [Error]
    instance, so [err.message] is always a string. *)
Inductive error_class : Type := PlainError | TypeError | SyntaxError.

Record exn : Type := mkExn { exn_class : error_class; message : string }.

(** [new Error(msg)] *)
Definition Error (msg : string) : exn := mkExn PlainError msg.

(** Completion of an expression: a value, or a throw. *)
Inductive completion (A : Type) : Type :=
| Normal (a : A)
| Abrupt (e : exn).
Arguments Normal {A} a.
Arguments Abrupt {A} e.

(** [!!s] for a string. *)
Definition truthy_string (s : string) : bool :=
  match s with EmptyString => false | String _ _ => true end.

(** [!!v] *)
Definition truthy (v : value) : bool :=
  match v with
  | JUndefined | JNull => false
  | JBool b => b
  | JNum x => truthy_number x
  | JStr s => truthy_string s
  | JArr _ | JObj _ => true
  end.

(** [a || b] on values. *)
Definition or_else (a b : value) : value := if truthy a then a else b.

(** [Array.prototype.join(",")] over already-rendered items. *)
Fixpoint join_comma (parts : list string) : string :=
  match parts with
  | [] => ""
  | [p] => p
  | p :: rest => p ++ "," ++ join_comma rest
  end.

(** Own member of an object; a repeated key reads as its last occurrence,
    which is what [JSON.parse] keeps. *)
Fixpoint member (key : string) (members : list (string * value)) : option value :=
  match members with
  | [] => None
  | (k, v) :: rest =>
      match member key rest with
      | Some later => Some later
      | None => if String.eqb k key then Some v else None
      end
  end.

(** [s.length]: the number of code units. *)
Definition string_length (s : string) : nat := List.length (code_units s).

(** [s[i]]: the code unit at position [i] as a string of its own. *)
Definition char_at (s : string) (i : nat) : value :=
  match nth_error (code_units s) i with
  | Some u => JStr (string_of_units [u])
  | None => JUndefined
  end.

(** [String.prototype.includes] *)
Fixpoint includes (pattern s : string) : bool :=
  if String.prefix pattern s then true
  else match s with
       | EmptyString => false
       | String _ rest => includes pattern rest
       end.

(** What the platform contributes and the component cannot see into: the
    JSON parser, the numeric reading of a string when it is compared with a
    number, and the exceptions the JavaScript engine and React raise (their
    wording differs between implementations). *)
Class Engine : Type := {
  (** [JSON.parse(text)] *)
  JSON_parse : string -> completion value;
  (** [text > 0], that is [Number(text) > 0] *)
  string_exceeds_zero : string -> bool;
  (** the [TypeError] of reading property [p] of [null] or [undefined] *)
  cannot_read : value -> string -> exn;
  (** the [TypeError] of calling something that is not a function *)
  not_a_function : string -> exn;
  (** the [TypeError] of converting to a primitive an object that has
      neither a callable [toString] nor a [valueOf] returning a primitive *)
  cannot_convert : exn;
  (** the error React throws when it is given an object as a child *)
  invalid_child : value -> exn
}.

Definition bind_completion {A B} (c : completion A) (k : A -> completion B)
  : completion B :=
  match c with
  | Normal a => k a
  | Abrupt e => Abrupt e
  end.

Notation "'let*' x ':=' c 'in' k" := (bind_completion c (fun x => k))
  (at level 10, x name, c at level 100, k at level 200).

Section WithEngine.
Context {engine : Engine}.

(** [v.p] for a property written by name.  The names the component reads
    ([candidates], [content], [parts], [text], [repos_url], [name], ...) are
    defined on no built-in prototype, so on an object only its own members
    answer, and on a primitive only [length] of a string does. *)
Definition get (v : value) (p : string) : completion value :=
  match v with
  | JUndefined | JNull => Abrupt (cannot_read v p)
  | JBool _ | JNum _ => Normal JUndefined
  | JStr s =>
      Normal (if String.eqb p "length"
              then JNum (number_of_Z (Z.of_nat (string_length s)))
              else JUndefined)
  | JArr items =>
      Normal (if String.eqb p "length"
              then JNum (number_of_Z (Z.of_nat (List.length items)))
              else JUndefined)
  | JObj members =>
      Normal (match member p members with Some x => x | None => JUndefined end)
  end.

(** [v[i]] for a literal index. *)
Definition at_index (v : value) (i : nat) : completion value :=
  match v with
  | JUndefined | JNull => Abrupt (cannot_read v (string_of_Z (Z.of_nat i)))
  | JBool _ | JNum _ => Normal JUndefined
  | JStr s => Normal (char_at s i)
  | JArr items => Normal (nth i items JUndefined)
  | JObj members =>
      Normal (match member (string_of_Z (Z.of_nat i)) members with
              | Some x => x
              | None => JUndefined
              end)
  end.

(** [String(v)], the coercion applied by template literals, by [+] with a
    string operand and by [JSON.parse] to its argument.  A parsed object
    inherits [Object.prototype.toString] unless it has a member named
    [toString], which is data and not callable: then the conversion throws.
    An array joins its items, [null] and [undefined] items as the empty
    string. *)
Fixpoint ToString (v : value) : completion string :=
  match v with
  | JUndefined => Normal "undefined"
  | JNull => Normal "null"
  | JBool true => Normal "true"
  | JBool false => Normal "false"
  | JNum x => Normal (Number_toString x)
  | JStr s => Normal s
  | JArr items =>
      let* parts :=
        (fix each (l : list value) : completion (list string) :=
           match l with
           | [] => Normal []
           | item :: rest =>
               let* part := match item with
                            | JUndefined | JNull => Normal ""
                            | _ => ToString item
                            end in
               let* parts := each rest in
               Normal (part :: parts)
           end) items in
      Normal (join_comma parts)
  | JObj members =>
      match member "toString" members with
      | Some _ => Abrupt cannot_convert
      | None => Normal "[object Object]"
      end
  end.

(** [v > 0].  [undefined] reads as [NaN], [null] as [0], an object or an
    array as the string it converts to. *)
Definition exceeds_zero (v : value) : completion bool :=
  match v with
  | JUndefined | JNull => Normal false
  | JBool b => Normal b
  | JNum x => Normal (positive_number x)
  | JStr s => Normal (string_exceeds_zero s)
  | JArr _ | JObj _ =>
      let* text := ToString v in
      Normal (string_exceeds_zero text)
  end.

(** Items of [items.map(f)], left to right; the first throw wins. *)
Fixpoint map_items (f : value -> completion value) (items : list value)
  : completion (list value) :=
  match items with
  | [] => Normal []
  | item :: rest =>
      let* y := f item in
      let* ys := map_items f rest in
      Normal (y :: ys)
  end.

(** [v.map(f)] where the source text of [v] is [expr]: only an array has a
    callable [map]. *)
Definition call_map (expr : string) (v : value) (f : value -> completion value)
  : completion value :=
  match v with
  | JUndefined | JNull => Abrupt (cannot_read v "map")
  | JArr items => let* ys := map_items f items in Normal (JArr ys)
  | _ => Abrupt (not_a_function (expr ++ ".map"))
  end.

End WithEngine.

End JS.
Export JS.

(** ** Component state

    The seven [useState] cells of [App], with their initial values. *)

Record UIState : Type := mkState {
  username : string;
  userData : value;
  repos : value;
  suggestions : value;
  isLoading : bool;
  error : option string;
  copiedIndex : option nat
}.

Definition initial : UIState :=
  mkState "" JNull (JArr []) (JArr []) false None None.

(** ** Effects of a handler *)

(** Synchronous calls a handler makes: the state setters and
    [console.error]. *)
Inductive call : Type :=
| SetUsername (s : string)
| SetUserData (v : value)
| SetRepos (v : value)
| SetSuggestions (v : value)
| SetIsLoading (b : bool)
| SetError (e : option string)
| SetCopiedIndex (i : option nat)
| ConsoleError (e : exn).

(** Every setter is called with a value, never with an updater function, so
    a call overwrites its cell whatever the cell held. *)
Definition apply_call (c : call) (st : UIState) : UIState :=
  match c with
  | SetUsername s =>
      mkState s (userData st) (repos st) (suggestions st) (isLoading st)
              (error st) (copiedIndex st)
  | SetUserData v =>
      mkState (username st) v (repos st) (suggestions st) (isLoading st)
              (error st) (copiedIndex st)
  | SetRepos v =>
      mkState (username st) (userData st) v (suggestions st) (isLoading st)
              (error st) (copiedIndex st)
  | SetSuggestions v =>
      mkState (username st) (userData st) (repos st) v (isLoading st)
              (error st) (copiedIndex st)
  | SetIsLoading b =>
      mkState (username st) (userData st) (repos st) (suggestions st) b
              (error st) (copiedIndex st)
  | SetError e =>
      mkState (username st) (userData st) (repos st) (suggestions st)
              (isLoading st) e (copiedIndex st)
  | SetCopiedIndex i =>
      mkState (username st) (userData st) (repos st) (suggestions st)
              (isLoading st) (error st) i
  | ConsoleError _ => st
  end.

(** The three interpolated parts of the prompt sent to the generative
    endpoint: the name and the bio as the template literal converts them to
    text, and the projected repositories, which it interpolates as their JSON
    text.  The fixed wording around them and the fixed [generationConfig] are
    constants of the request. *)
Record prompt_data : Type := mkPrompt {
  prompt_name : string;
  prompt_bio : string;
  prompt_repositories : value
}.

Inductive request : Type :=
| GET (url : string)
| POST (url : string) (body : prompt_data).

(** A [Response]: its status and what [await response.json()] gives. *)
Record response : Type := mkResponse {
  status : Z;
  json : completion value
}.

(** [response.ok] *)
Definition ok (r : response) : bool := (200 <=? status r) && (status r <=? 299).

(** How the promise returned by [fetch] settles. *)
Inductive fetch_result : Type :=
| Resolved (r : response)
| Rejected (e : exn).

(** A handler body: it returns, throws, makes a synchronous call and goes
    on, or awaits a request and goes on with how it settled. *)
Inductive prog (A : Type) : Type :=
| Ret (a : A)
| Throw (e : exn)
| Do (c : call) (k : prog A)
| Await (r : request) (k : fetch_result -> prog A).
Arguments Ret {A} a.
Arguments Throw {A} e.
Arguments Do {A} c k.
Arguments Await {A} r k.

Fixpoint bind {A B} (p : prog A) (f : A -> prog B) : prog B :=
  match p with
  | Ret a => f a
  | Throw e => Throw e
  | Do c k => Do c (bind k f)
  | Await r k => Await r (fun settled => bind (k settled) f)
  end.

Notation "x <- p ;; q" := (bind p (fun x => q))
  (at level 61, p at next level, right associativity).
Notation "p ;; q" := (bind p (fun _ => q))
  (at level 61, right associativity).

(** [try { p } catch (err) { handler err }] *)
Fixpoint try_catch {A} (p : prog A) (handler : exn -> prog A) : prog A :=
  match p with
  | Ret a => Ret a
  | Throw e => handler e
  | Do c k => Do c (try_catch k handler)
  | Await r k => Await r (fun settled => try_catch (k settled) handler)
  end.

(** [try { p } finally { cleanup }]: the cleanup runs on both exits and the
    exit of [p] is resumed after it. *)
Fixpoint finally {A} (p : prog A) (cleanup : prog unit) : prog A :=
  match p with
  | Ret a => cleanup ;; Ret a
  | Throw e => cleanup ;; Throw e
  | Do c k => Do c (finally k cleanup)
  | Await r k => Await r (fun settled => finally (k settled) cleanup)
  end.

Definition eval {A} (c : completion A) : prog A :=
  match c with
  | Normal a => Ret a
  | Abrupt e => Throw e
  end.

(** [await fetch(...)]: a rejected promise is a throw at the [await]. *)
Definition fetch (r : request) : prog response :=
  Await r (fun settled =>
             match settled with
             | Resolved resp => Ret resp
             | Rejected e => Throw e
             end).

Definition setUserData (v : value) : prog unit := Do (SetUserData v) (Ret tt).
Definition setRepos (v : value) : prog unit := Do (SetRepos v) (Ret tt).
Definition setSuggestions (v : value) : prog unit := Do (SetSuggestions v) (Ret tt).
Definition setIsLoading (b : bool) : prog unit := Do (SetIsLoading b) (Ret tt).
Definition setError (e : option string) : prog unit := Do (SetError e) (Ret tt).
Definition setUsername (s : string) : prog unit := Do (SetUsername s) (Ret tt).
Definition console_error (e : exn) : prog unit := Do (ConsoleError e) (Ret tt).

(** [if (cond) throw e;] *)
Definition throw_if (cond : bool) (e : exn) : prog unit :=
  if cond then Throw e else Ret tt.

(** ** The errors [handleAnalyze] throws

    Each definition is one [new Error(...)] expression of the source, named
    after the failure it reports. *)

Definition UserNotFound : exn := Error "GitHub user not found.".

Definition ProfileFetchFailed (code : Z) : exn :=
  Error ("Failed to fetch GitHub user data. Status: " ++ string_of_Z code).

Definition RepositoriesFetchFailed : exn :=
  Error "Failed to fetch GitHub repository data.".

Definition GenerationForbidden : exn := Error "API_KEY_RESTRICTED".

Definition GenerationFailed (code : Z) : exn :=
  Error ("AI API call failed with status: " ++ string_of_Z code).

Definition ContentBlocked (reason : string) : exn :=
  Error ("AI content blocked: " ++ reason).

Definition NoSuggestions : exn := Error "AI failed to generate valid suggestions.".

(** The three messages the component writes itself. *)
Definition validation_message : string := "Please enter a GitHub username.".

Definition restricted_message : string :=
  "The AI analysis is disabled on this public site due to API key restrictions. This feature works in local development.".

Definition fallback_message : string :=
  "An unexpected error occurred. Please try again later.".

Definition apiKey : string := "".

Definition apiUrl : string :=
  "https://generativelanguage.googleapis.com/v1beta/models/gemini-2.0-flash:generateContent?key="
  ++ apiKey.

Section Handler.
Context {engine : Engine}.

(** [a && b]: [b] is evaluated only when [a] is truthy. *)
Definition js_and (a b : completion value) : completion value :=
  let* x := a in
  if truthy x then b else Normal x.

(** [a || b] *)
Definition js_or (a b : completion value) : completion value :=
  let* x := a in
  if truthy x then Normal x else b.

(** [r => ({name: r.name, description: r.description,
            stars: r.stargazers_count, language: r.language})] *)
Definition repo_projection (r : value) : completion value :=
  let* name := get r "name" in
  let* description := get r "description" in
  let* stars := get r "stargazers_count" in
  let* language := get r "language" in
  Normal (JObj [("name", name); ("description", description);
                ("stars", stars); ("language", language)]).

(** [result.candidates[0].content.parts[0].text] *)
Definition first_part_text (result : value) : completion value :=
  let* candidates := get result "candidates" in
  let* candidate := at_index candidates 0 in
  let* content := get candidate "content" in
  let* parts := get content "parts" in
  let* part := at_index parts 0 in
  get part "text".

(** [result.candidates && result.candidates.length > 0
     && result.candidates[0].content.parts[0].text] *)
Definition content_guard (result : value) : completion value :=
  js_and
    (js_and (get result "candidates")
            (let* candidates := get result "candidates" in
             let* len := get candidates "length" in
             let* positive := exceeds_zero len in
             Normal (JBool positive)))
    (first_part_text result).

(** [result.promptFeedback && result.promptFeedback.blockReason] *)
Definition block_guard (result : value) : completion value :=
  js_and (get result "promptFeedback")
         (let* feedback := get result "promptFeedback" in
          get feedback "blockReason").

(** [JSON.parse(jsonText)]: the argument is converted to a string first. *)
Definition parse_text (jsonText : value) : completion value :=
  let* text := ToString jsonText in
  JSON_parse text.

(** [fetchedUserData.repos_url + '?sort=updated&per_page=10'] *)
Definition repositories_address (fetchedUserData : value) : completion string :=
  let* repos_url := get fetchedUserData "repos_url" in
  let* text := ToString repos_url in
  Normal (text ++ "?sort=updated&per_page=10").

(** The [catch (err)] block.  [c] is the state the handler closed over: the
    test [!userData] reads the [userData] of the render that created this
    [handleAnalyze], not what [setUserData] was called with since. *)
Definition on_error (c : UIState) (err : exn) : prog unit :=
  console_error err ;;
  (if String.eqb (message err) "API_KEY_RESTRICTED"
   then setError (Some restricted_message)
   else setError (Some (if truthy_string (message err) then message err
                        else fallback_message))) ;;
  (if negb (truthy (userData c))
   then setUserData JNull ;; setRepos (JArr [])
   else Ret tt).

(** The [try] block from the status checks on the generation response to
    its end. *)
Definition accept (response : response) : prog unit :=
  throw_if (status response =? 403) GenerationForbidden ;;
  throw_if (negb (ok response)) (GenerationFailed (status response)) ;;
  result <- eval (json response) ;;
  guard <- eval (content_guard result) ;;
  if truthy guard then
    jsonText <- eval (first_part_text result) ;;
    parsedSuggestions <- eval (parse_text jsonText) ;;
    setSuggestions parsedSuggestions
  else
    blocked <- eval (block_guard result) ;;
    (if truthy blocked then
       feedback <- eval (get result "promptFeedback") ;;
       blockReason <- eval (get feedback "blockReason") ;;
       reason <- eval (ToString blockReason) ;;
       Throw (ContentBlocked reason)
     else Ret tt) ;;
    Throw NoSuggestions.

(** The template literal of the prompt: each interpolated expression is
    evaluated and converted to a string before the next one is evaluated.
    [JSON.stringify] gives a string for every array. *)
Definition prompt_of (fetchedUserData fetchedRepoData : value)
  : completion prompt_data :=
  let* name := js_or (get fetchedUserData "name") (get fetchedUserData "login") in
  let* name_text := ToString name in
  let* bio := get fetchedUserData "bio" in
  let* bio_text := ToString bio in
  let* projected := call_map "fetchedRepoData" fetchedRepoData repo_projection in
  Normal (mkPrompt name_text bio_text projected).

(** Step 2 of the [try] block: build the prompt and call the generative
    endpoint. *)
Definition generate (fetchedUserData fetchedRepoData : value) : prog unit :=
  prompt <- eval (prompt_of fetchedUserData fetchedRepoData) ;;
  response <- fetch (POST apiUrl prompt) ;;
  accept response.

(** The [try] block.  Step 1 fetches the live GitHub data and stores it. *)
Definition analysis (c : UIState) : prog unit :=
  userResponse <- fetch (GET ("https://api.github.com/users/" ++ username c)) ;;
  throw_if (status userResponse =? 404) UserNotFound ;;
  throw_if (negb (ok userResponse)) (ProfileFetchFailed (status userResponse)) ;;
  fetchedUserData <- eval (json userResponse) ;;
  address <- eval (repositories_address fetchedUserData) ;;
  reposResponse <- fetch (GET address) ;;
  throw_if (negb (ok reposResponse)) RepositoriesFetchFailed ;;
  fetchedRepoData <- eval (json reposResponse) ;;
  setUserData fetchedUserData ;;
  setRepos fetchedRepoData ;;
  generate fetchedUserData fetchedRepoData.

(** [handleAnalyze], as created by the render of state [c]. *)
Definition handleAnalyze (c : UIState) : prog unit :=
  if negb (truthy_string (username c)) then
    setError (Some validation_message)
  else
    setIsLoading true ;;
    setError None ;;
    setUserData JNull ;;
    setRepos (JArr []) ;;
    setSuggestions (JArr []) ;;
    finally (try_catch (analysis c) (on_error c)) (setIsLoading false).

End Handler.

(** ** Running a handler *)

(** Where a handler stands when control returns to the event loop. *)
Inductive suspended : Type :=
| Finished
| Uncaught (e : exn)
| Waiting (r : request) (k : fetch_result -> prog unit).

(** Run the synchronous stretch of [p]: the setter calls land in the state,
    and the run stops at the next [await], at the end, or at a throw nothing
    caught. *)
Fixpoint sync (p : prog unit) (st : UIState) : UIState * suspended :=
  match p with
  | Ret _ => (st, Finished)
  | Throw e => (st, Uncaught e)
  | Do c k => sync k (apply_call c st)
  | Await r k => (st, Waiting r k)
  end.

(** How a run over a given list of settled requests ends. *)
Inductive ending : Type :=
| Completed
| Crashed (e : exn)
| InFlight.

Record outcome : Type := mkOutcome {
  final : UIState;
  sent : list request;
  ended : ending
}.

(** Run [p] from state [st], the [n]-th request it awaits settling as the
    [n]-th element of [settled]; with no element left the request stays in
    flight. *)
Fixpoint exec (p : prog unit) (settled : list fetch_result) (st : UIState)
  : outcome :=
  match p with
  | Ret _ => mkOutcome st [] Completed
  | Throw e => mkOutcome st [] (Crashed e)
  | Do c k => exec k settled (apply_call c st)
  | Await r k =>
      match settled with
      | [] => mkOutcome st [r] InFlight
      | x :: rest =>
          let o := exec (k x) rest st in
          mkOutcome (final o) (r :: sent o) (ended o)
      end
  end.

(** ** The controller: events and analyses in flight *)

Inductive event : Type :=
| Change (text : string)   (* typing in the query field *)
| Click                    (* the submit button *)
| KeyPress (key : string). (* a key pressed in the query field *)

Record controller : Type := mkController {
  ui : UIState;
  in_flight : list (request * (fetch_result -> prog unit))
}.

Definition fresh : controller := mkController initial [].

Section Controller.
Context {engine : Engine}.

(** What the element receiving [ev] runs, in the render of state [st]:
    - the input's [onChange] stores the text;
    - the button carries [disabled={isLoading}], and a disabled button
      delivers no click, otherwise [onClick] is [handleAnalyze];
    - the input's [onKeyPress] is [e.key === 'Enter' && handleAnalyze()]. *)
Definition handler (st : UIState) (ev : event) : prog unit :=
  match ev with
  | Change text => setUsername text
  | Click => if isLoading st then Ret tt else handleAnalyze st
  | KeyPress key => if String.eqb key "Enter" then handleAnalyze st else Ret tt
  end.

Definition start (p : prog unit) (c : controller) : controller :=
  match sync p (ui c) with
  | (st, Waiting r k) => mkController st (in_flight c ++ [(r, k)])
  | (st, _) => mkController st (in_flight c)
  end.

Definition dispatch (ev : event) (c : controller) : controller :=
  start (handler (ui c) ev) c.

(** The [i]-th request in flight settles as [x] and its analysis goes on. *)
Definition settle (i : nat) (x : fetch_result) (c : controller) : controller :=
  match nth_error (in_flight c) i with
  | None => c
  | Some (_, k) =>
      start (k x)
            (mkController (ui c)
                          (firstn i (in_flight c) ++ skipn (S i) (in_flight c)))
  end.

End Controller.

(** ** Rendering *)

Inductive error_style : Type :=
| Restricted   (* yellow box, shield icon, the heading: AI Analysis Disabled *)
| Alarming.    (* red box, crash icon, the heading: An Error Occurred *)

(** [renderError]: [None] is the [null] it returns when there is no error. *)
Definition renderError (error : option string) : option (error_style * string) :=
  match error with
  | None => None
  | Some msg =>
      if negb (truthy_string msg) then None
      else if includes "API key restrictions" msg then Some (Restricted, msg)
      else Some (Alarming, msg)
  end.

(** [!!error] *)
Definition error_set (error : option string) : bool :=
  match error with
  | None => false
  | Some msg => truthy_string msg
  end.

(** What the results panel is mounted with.  The profile card, the
    suggestion list and the repository grid inside it are markup over
    these four cells. *)
Record results : Type := mkResults {
  shown_profile : value;
  shown_suggestions : value;
  shown_repos : value;
  shown_copied : option nat
}.

(** The panels of the page below the header. *)
Record view : Type := mkView {
  submit_disabled : bool;
  loading_panel : bool;
  ready_panel : bool;
  error_panel : option (error_style * string);
  results_panel : option results
}.

Definition render (st : UIState) : view :=
  mkView
    (isLoading st)
    (isLoading st)
    (negb (isLoading st) && negb (truthy (userData st))
     && negb (error_set (error st)))
    (if error_set (error st) && negb (isLoading st)
     then renderError (error st) else None)
    (if negb (isLoading st) && truthy (userData st)
     then Some (mkResults (userData st) (suggestions st) (repos st)
                          (copiedIndex st))
     else None).

(** ** A reference engine

    An executable instance of [Engine], used to run the component on concrete
    payloads.  The language specification fixes what [JSON.parse] accepts and
    returns and how a string reads as a number, and leaves the wording of
    error messages to the implementation: the parser below reads the whole
    JSON grammar, its failure carries one fixed text, and the other exceptions
    carry the wording of V8. *)

Module Reference.

Definition quote : ascii := "034"%char.
Definition backslash : ascii := "092"%char.

Definition is_space (c : ascii) : bool :=
  match nat_of_ascii c with
  | 9%nat | 10%nat | 13%nat | 32%nat => true
  | _ => false
  end.

Fixpoint skip_spaces (s : string) : string :=
  match s with
  | String c rest => if is_space c then skip_spaces rest else s
  | EmptyString => s
  end.

Definition digit_of (c : ascii) : option Z :=
  let n := nat_of_ascii c in
  if (48 <=? n)%nat && (n <=? 57)%nat then Some (Z.of_nat n - 48) else None.

Definition hex_of (c : ascii) : option N :=
  let n := N_of_ascii c in
  (if (48 <=? n) && (n <=? 57) then Some (n - 48)
   else if (65 <=? n) && (n <=? 70) then Some (n - 55)
   else if (97 <=? n) && (n <=? 102) then Some (n - 87)
   else None)%N.

(** The digits at the head of [s], read after the integer [acc]: what they
    spell, how many they are, and what follows them. *)
Fixpoint more_digits (acc count : Z) (s : string) : Z * Z * string :=
  match s with
  | String c rest =>
      match digit_of c with
      | Some d => more_digits (10 * acc + d) (count + 1) rest
      | None => (acc, count, s)
      end
  | EmptyString => (acc, count, s)
  end.

(** At least one digit, read after [acc]. *)
Definition some_digits (acc : Z) (s : string) : option (Z * Z * string) :=
  match more_digits acc 0 s with
  | (_, 0, _) => None
  | found => Some found
  end.

(** The integer part of a JSON number: [0], or a digit other than [0] and
    more digits. *)
Definition integer_part (s : string) : option (Z * string) :=
  match s with
  | String c rest =>
      match digit_of c with
      | Some 0 => Some (0, rest)
      | Some d => let '(n, _, rest') := more_digits d 0 rest in Some (n, rest')
      | None => None
      end
  | EmptyString => None
  end.

(** The fraction of a JSON number, read after the integer part [acc]: the
    digits of both, and how many belong to the fraction. *)
Definition fraction_part (acc : Z) (s : string) : option (Z * Z * string) :=
  match s with
  | String "." rest => some_digits acc rest
  | _ => Some (acc, 0, s)
  end.

(** The exponent of a JSON number. *)
Definition exponent_part (s : string) : option (Z * string) :=
  match s with
  | String c rest =>
      if (Ascii.eqb c "e" || Ascii.eqb c "E")%bool then
        let '(negative, digits) :=
          match rest with
          | String "-" rest' => (true, rest')
          | String "+" rest' => (false, rest')
          | _ => (false, rest)
          end in
        match some_digits 0 digits with
        | Some (n, _, rest') => Some (if negative then - n else n, rest')
        | None => None
        end
      else Some (0, s)
  | EmptyString => Some (0, s)
  end.

(** A JSON number at the head of [s]: the double nearest to what it
    spells. *)
Definition json_number (s : string) : option (number * string) :=
  let '(negative, unsigned) :=
    match s with
    | String "-" rest => (true, rest)
    | _ => (false, s)
    end in
  match integer_part unsigned with
  | Some (whole, rest) =>
      match fraction_part whole rest with
      | Some (digits, decimals, rest') =>
          match exponent_part rest' with
          | Some (exponent, rest'') =>
              Some (number_of_decimal negative digits (exponent - decimals), rest'')
          | None => None
          end
      | None => None
      end
  | None => None
  end.

(** The characters of a string literal after its opening quote, each
    [\u] escape as the bytes of its own code unit. *)
Fixpoint string_body (fuel : nat) (s : string) : option (string * string) :=
  match fuel, s with
  | S fuel', String c rest =>
      if Ascii.eqb c quote then Some ("", rest)
      else if Ascii.eqb c backslash then
        match rest with
        | String e rest' =>
            let simple (ch : ascii) :=
              match string_body fuel' rest' with
              | Some (body, rest'') => Some (String ch body, rest'')
              | None => None
              end in
            if Ascii.eqb e quote then simple quote
            else if Ascii.eqb e backslash then simple backslash
            else if Ascii.eqb e "/" then simple "/"%char
            else if Ascii.eqb e "b" then simple "008"%char
            else if Ascii.eqb e "f" then simple "012"%char
            else if Ascii.eqb e "n" then simple "010"%char
            else if Ascii.eqb e "r" then simple "013"%char
            else if Ascii.eqb e "t" then simple "009"%char
            else if Ascii.eqb e "u" then
              match rest' with
              | String h1 (String h2 (String h3 (String h4 rest''))) =>
                  match hex_of h1, hex_of h2, hex_of h3, hex_of h4 with
                  | Some a, Some b, Some c, Some d =>
                      match string_body fuel' rest'' with
                      | Some (body, rest3) =>
                          Some (utf8 (4096 * a + 256 * b + 16 * c + d)%N ++ body,
                                rest3)
                      | None => None
                      end
                  | _, _, _, _ => None
                  end
              | _ => None
              end
            else None
        | EmptyString => None
        end
      else if (nat_of_ascii c <? 32)%nat then None
      else
        match string_body fuel' rest with
        | Some (body, rest') => Some (String c body, rest')
        | None => None
        end
  | _, _ => None
  end.

(** A string literal after its opening quote: its code units, surrogates
    that follow each other joined. *)
Definition json_string (s : string) : option (string * string) :=
  match string_body (String.length s) s with
  | Some (body, rest) => Some (string_of_units (code_units body), rest)
  | None => None
  end.

Definition keyword (word : string) (v : value) (s : string)
  : option (value * string) :=
  if String.prefix word s
  then Some (v, String.substring (String.length word)
                                 (String.length s - String.length word) s)
  else None.

(** One JSON value at the head of [s], and what follows it. *)
Fixpoint json_value (fuel : nat) (s : string) : option (value * string) :=
  match fuel with
  | O => None
  | S fuel' =>
      match skip_spaces s with
      | EmptyString => None
      | String c rest as s' =>
          if Ascii.eqb c quote then
            match json_string rest with
            | Some (body, rest') => Some (JStr body, rest')
            | None => None
            end
          else if Ascii.eqb c "[" then
            match skip_spaces rest with
            | String "]" rest' => Some (JArr [], rest')
            | _ =>
                match json_items fuel' rest with
                | Some (items, rest') => Some (JArr items, rest')
                | None => None
                end
            end
          else if Ascii.eqb c "{" then
            match skip_spaces rest with
            | String "}" rest' => Some (JObj [], rest')
            | _ =>
                match json_members fuel' rest with
                | Some (members, rest') => Some (JObj members, rest')
                | None => None
                end
            end
          else if Ascii.eqb c "n" then keyword "null" JNull s'
          else if Ascii.eqb c "t" then keyword "true" (JBool true) s'
          else if Ascii.eqb c "f" then keyword "false" (JBool false) s'
          else
            match json_number s' with
            | Some (x, rest') => Some (JNum x, rest')
            | None => None
            end
      end
  end
with json_items (fuel : nat) (s : string) : option (list value * string) :=
  match fuel with
  | O => None
  | S fuel' =>
      match json_value fuel' s with
      | Some (v, rest) =>
          match skip_spaces rest with
          | String "," rest' =>
              match json_items fuel' rest' with
              | Some (vs, rest'') => Some (v :: vs, rest'')
              | None => None
              end
          | String "]" rest' => Some ([v], rest')
          | _ => None
          end
      | None => None
      end
  end
with json_members (fuel : nat) (s : string)
  : option (list (string * value) * string) :=
  match fuel with
  | O => None
  | S fuel' =>
      match skip_spaces s with
      | String c rest =>
          if Ascii.eqb c quote then
            match json_string rest with
            | Some (key, rest1) =>
                match skip_spaces rest1 with
                | String ":" rest2 =>
                    match json_value fuel' rest2 with
                    | Some (v, rest3) =>
                        match skip_spaces rest3 with
                        | String "," rest4 =>
                            match json_members fuel' rest4 with
                            | Some (ms, rest5) => Some ((key, v) :: ms, rest5)
                            | None => None
                            end
                        | String "}" rest4 => Some ([(key, v)], rest4)
                        | _ => None
                        end
                    | None => None
                    end
                | _ => None
                end
            | None => None
            end
          else None
      | EmptyString => None
      end
  end.

Definition parse_failure : exn := mkExn SyntaxError "Unexpected token in JSON".

Definition parse (text : string) : completion value :=
  match json_value (2 * String.length text + 2) text with
  | Some (v, rest) =>
      match skip_spaces rest with
      | EmptyString => Normal v
      | String _ _ => Abrupt parse_failure
      end
  | None => Abrupt parse_failure
  end.

(** *** A string read as a number

    [Number(text)], as far as [text > 0] needs it. *)

(** White space and line terminators. *)
Definition blank_unit (u : N) : bool :=
  ((9 <=? u) && (u <=? 13) || (u =? 32) || (u =? 160) || (u =? 5760)
   || (8192 <=? u) && (u <=? 8202) || (u =? 8232) || (u =? 8233)
   || (u =? 8239) || (u =? 8287) || (u =? 12288) || (u =? 65279))%N.

Fixpoint trim_start (units : list N) : list N :=
  match units with
  | u :: rest => if blank_unit u then trim_start rest else units
  | [] => []
  end.

Definition trim (units : list N) : list N :=
  rev (trim_start (rev (trim_start units))).

(** The value of a digit in the given radix. *)
Definition digit_in (radix : N) (u : N) : option N :=
  let d := (if (48 <=? u) && (u <=? 57) then Some (u - 48)
            else if (65 <=? u) && (u <=? 70) then Some (u - 55)
            else if (97 <=? u) && (u <=? 102) then Some (u - 87)
            else None)%N in
  match d with
  | Some n => if (n <? radix)%N then Some n else None
  | None => None
  end.

(** Digits in the given radix and nothing else: are there any, and is one
    of them not zero. *)
Fixpoint radix_digits (radix : N) (units : list N) : option bool :=
  match units with
  | [] => Some false
  | u :: rest =>
      match digit_in radix u, radix_digits radix rest with
      | Some d, Some positive => Some (negb (d =? 0)%N || positive)
      | _, _ => None
      end
  end.

(** Decimal digits at the head of [units], read after [acc]. *)
Fixpoint decimal_run (acc count : Z) (units : list N) : Z * Z * list N :=
  match units with
  | u :: rest =>
      match digit_in 10 u with
      | Some d => decimal_run (10 * acc + Z.of_N d) (count + 1) rest
      | None => (acc, count, units)
      end
  | [] => (acc, count, units)
  end.

(** An unsigned decimal literal and nothing else: its digits and its
    exponent of ten. *)
Definition decimal_literal (units : list N) : option (Z * Z) :=
  let '(whole, whole_count, rest) := decimal_run 0 0 units in
  let '(digits, decimals, rest') :=
    match rest with
    | 46%N :: fraction => decimal_run whole 0 fraction
    | _ => (whole, 0, rest)
    end in
  if whole_count + decimals =? 0 then None
  else
    match rest' with
    | [] => Some (digits, - decimals)
    | e :: signed =>
        if ((e =? 101) || (e =? 69))%N then
          let '(negative, exponent) :=
            match signed with
            | 45%N :: rest'' => (true, rest'')
            | 43%N :: rest'' => (false, rest'')
            | _ => (false, signed)
            end in
          match decimal_run 0 0 exponent with
          | (_, 0, _) => None
          | (n, _, []) => Some (digits, (if negative then - n else n) - decimals)
          | _ => None
          end
        else None
    end.

Definition Infinity_units : list N := code_units "Infinity".

Definition same_units (a b : list N) : bool :=
  (List.length a =? List.length b)%nat
  && forallb (fun pair => (fst pair =? snd pair)%N) (combine a b).

(** [Number(text) > 0] *)
Definition exceeds_zero_text (text : string) : bool :=
  match trim (code_units text) with
  | [] => false
  | 45%N :: _ => false
  | 48%N :: marker :: digits =>
      if ((marker =? 120) || (marker =? 88))%N then
        match digits, radix_digits 16 digits with
        | _ :: _, Some positive => positive
        | _, _ => false
        end
      else if ((marker =? 111) || (marker =? 79))%N then
        match digits, radix_digits 8 digits with
        | _ :: _, Some positive => positive
        | _, _ => false
        end
      else if ((marker =? 98) || (marker =? 66))%N then
        match digits, radix_digits 2 digits with
        | _ :: _, Some positive => positive
        | _, _ => false
        end
      else
        match decimal_literal (48%N :: marker :: digits) with
        | Some (n, exponent) => positive_number (number_of_decimal false n exponent)
        | None => false
        end
  | first :: rest =>
      let unsigned := if (first =? 43)%N then rest else first :: rest in
      if same_units unsigned Infinity_units then true
      else
        match decimal_literal unsigned with
        | Some (n, exponent) => positive_number (number_of_decimal false n exponent)
        | None => false
        end
  end.

Definition read_failure (v : value) (p : string) : exn :=
  mkExn TypeError
        ("Cannot read properties of "
         ++ match v with JNull => "null" | _ => "undefined" end
         ++ " (reading '" ++ p ++ "')").

Definition conversion_failure : exn :=
  mkExn TypeError "Cannot convert object to primitive value".

Definition call_failure (expr : string) : exn :=
  mkExn TypeError (expr ++ " is not a function").

Definition child_failure (v : value) : exn :=
  Error "Objects are not valid as a React child".

Definition engine : Engine := {|
  JSON_parse := parse;
  string_exceeds_zero := exceeds_zero_text;
  cannot_read := read_failure;
  not_a_function := call_failure;
  cannot_convert := conversion_failure;
  invalid_child := child_failure
|}.

End Reference.

(** ** Vocabulary of the specification *)

(** A query that is empty or made of blanks only. *)
Definition blank (query : string) : bool :=
  match Reference.skip_spaces query with
  | EmptyString => true
  | String _ _ => false
  end.




(** The views of the state machine, read off the state. *)
Definition in_loading (st : UIState) : bool := isLoading st.

Definition in_error (st : UIState) : bool :=
  negb (isLoading st) && error_set (error st).

Definition in_results (st : UIState) : bool :=
  negb (isLoading st) && truthy (userData st).

(** The text the [catch] block stores for a caught [err]. *)
Definition shown_message (err : exn) : string :=
  if String.eqb (message err) "API_KEY_RESTRICTED" then restricted_message
  else if truthy_string (message err) then message err
  else fallback_message.

(** The state the [catch] and [finally] blocks leave, entered in state [st]
    by a handler that closed over [c]: the error is stored, the loading flag
    is lowered, and the profile and repositories are reset when the closed
    over [userData] was falsy. *)
Definition after_error (c : UIState) (err : exn) (st : UIState) : UIState :=
  mkState (username st)
          (if truthy (userData c) then userData st else JNull)
          (if truthy (userData c) then repos st else JArr [])
          (suggestions st) false (Some (shown_message err)) (copiedIndex st).



(** A family of outcomes, one per status code, carries the code when the
    code can be read back from the outcome. *)
Definition carries_status (run : Z -> outcome) : Prop :=
  exists read : outcome -> Z,
    forall code, (code < 200 \/ 299 < code) -> read (run code) = code.

(** A response with a success status and a body that parses. *)
Definition success (code : Z) (body : value) : fetch_result :=
  Resolved (mkResponse code (Normal body)).

(** A response with a status and a body nobody reads. *)
Definition failure (code : Z) : fetch_result :=
  Resolved (mkResponse code (Normal JNull)).

(** One analysis on its own: [handleAnalyze] as created by the render of
    [c], started in that state, its requests settling as [settled]. *)
Definition analyze {engine : Engine} (c : UIState) (settled : list fetch_result)
  : outcome :=
  exec (handleAnalyze c) settled c.

(** The handling of the generation response [x], with the [catch] and
    [finally] blocks around it, entered in state [st] by a handler that
    closed over [c]. *)
Definition accepted {engine : Engine} (c : UIState) (x : response)
           (settled : list fetch_result) (st : UIState) : outcome :=
  exec (finally (try_catch (accept x) (on_error c)) (setIsLoading false))
       settled st.

(** ** Single flight

    Vocabulary for the claim that one analysis runs at a time. *)

(** A program that never calls [setIsLoading]. *)
Fixpoint quiet {A} (p : prog A) : Prop :=
  match p with
  | Ret _ | Throw _ => True
  | Do (SetIsLoading _) _ => False
  | Do _ k => quiet k
  | Await _ k => forall settled, quiet (k settled)
  end.

(** [lowers b p]: started with the loading flag at [b] and left alone, [p]
    has the flag up at every [await] and down when it ends. *)
Fixpoint lowers (b : bool) (p : prog unit) : Prop :=
  match p with
  | Ret _ | Throw _ => b = false
  | Do c k => lowers (match c with SetIsLoading b' => b' | _ => b end) k
  | Await _ k => b = true /\ forall settled, lowers true (k settled)
  end.

(** The controller is idle with the flag down, or has one analysis in
    flight with the flag up. *)
Definition single_flight (c : controller) : Prop :=
  match in_flight c with
  | [] => isLoading (ui c) = false
  | [(_, k)] => isLoading (ui c) = true /\ forall settled, lowers true (k settled)
  | _ :: _ :: _ => False
  end.

(** What can happen to a page whose query field ignores the Enter key: text
    is typed, the button is clicked, a key other than Enter is pressed, a
    request in flight settles. *)
Inductive button_only {engine : Engine} : controller -> controller -> Prop :=
| typing (c : controller) (text : string) :
    button_only c (dispatch (Change text) c)
| clicking (c : controller) :
    button_only c (dispatch Click c)
| other_key (c : controller) (key : string) :
    key <> "Enter" -> button_only c (dispatch (KeyPress key) c)
| settling (c : controller) (i : nat) (x : fetch_result) :
    button_only c (settle i x c).

(** Pages reachable from the fresh page that way. *)
Inductive button_reachable {engine : Engine} : controller -> Prop :=
| reach_fresh : button_reachable fresh
| reach_step (c c' : controller) :
    button_reachable c -> button_only c c' -> button_reachable c'.

(** ** Sample payloads *)

Module Sample.

Definition profile : value :=
  JObj [("login", JStr "octocat");
        ("name", JStr "The Octocat");
        ("bio", JNull);
        ("avatar_url", JStr "https://avatars.githubusercontent.com/u/583231");
        ("repos_url", JStr "https://api.github.com/users/octocat/repos")].

(** A whole number. *)
Definition num (n : Z) : value := JNum (number_of_Z n).

Definition repo (id : Z) (name : string) : value :=
  JObj [("id", num id);
        ("name", JStr name);
        ("description", JNull);
        ("language", JStr "Ruby");
        ("stargazers_count", num 7);
        ("forks_count", num 2);
        ("html_url", JStr ("https://github.com/octocat/" ++ name))].

Definition two_repos : value :=
  JArr [repo 1 "hello-world"; repo 2 "spoon-knife"].

Definition eleven_repos : value :=
  JArr (map (fun i => repo i "hello-world") [1; 2; 3; 4; 5; 6; 7; 8; 9; 10; 11]).

(** A generation body whose first candidate's first part holds [text]. *)
Definition generated (text : string) : value :=
  JObj [("candidates",
         JArr [JObj [("content",
                      JObj [("parts", JArr [JObj [("text", JStr text)]])])]])].

(** A generation body with no candidate and a block reason. *)
Definition blocked (reason : string) : value :=
  JObj [("promptFeedback", JObj [("blockReason", JStr reason)])].

(** A generation body whose only candidate was cut by the safety filter and
    carries no content. *)
Definition filtered : value :=
  JObj [("candidates", JArr [JObj [("finishReason", JStr "SAFETY")]]);
        ("promptFeedback", JObj [("blockReason", JStr "SAFETY")])].

(** The state after typing [query] into a fresh page. *)
Definition typed (query : string) : UIState :=
  apply_call (SetUsername query) initial.

Definition one_suggestion : value :=
  JArr [JObj [("title", JStr "Show your stack");
              ("markdown", JStr "![Ruby](https://skillicons.dev/icons?i=ruby)")]].

(** A page showing the results of an earlier analysis. *)
Definition showing_results : UIState :=
  mkState "octocat" profile two_repos one_suggestion false None None.

(** The results page with the query field emptied. *)
Definition results_with_empty_query : UIState :=
  apply_call (SetUsername "") showing_results.

Definition repos_address : string :=
  "https://api.github.com/users/octocat/repos?sort=updated&per_page=10".

(** What the prompt carries of [two_repos]. *)
Definition projected_repos : value :=
  JArr [JObj [("name", JStr "hello-world"); ("description", JNull);
              ("stars", num 7); ("language", JStr "Ruby")];
        JObj [("name", JStr "spoon-knife"); ("description", JNull);
              ("stars", num 7); ("language", JStr "Ruby")]].

(** The prompt built from [profile] and [two_repos]: the bio is [null] and
    reads as that word. *)
Definition octocat_prompt : prompt_data :=
  mkPrompt "The Octocat" "null" projected_repos.

(** One analysis on the reference engine. *)
Definition run_analysis : UIState -> list fetch_result -> outcome :=
  analyze (engine := Reference.engine).

End Sample.

(** ** Paths of a handler

    Predicates over every path a handler can take, whatever the requests it
    awaits settle as. *)

(** No path of [p] makes a call that [bad] marks. *)
Fixpoint never_calls {A} (bad : call -> bool) (p : prog A) : Prop :=
  match p with
  | Ret _ | Throw _ => True
  | Do c k => bad c = false /\ never_calls bad k
  | Await _ k => forall settled, never_calls bad (k settled)
  end.

(** No path of [p] ends in a throw. *)
Fixpoint contained {A} (p : prog A) : Prop :=
  match p with
  | Ret _ => True
  | Throw _ => False
  | Do _ k => contained k
  | Await _ k => forall settled, contained (k settled)
  end.

(** No path of [p] awaits more than [n] requests. *)
Fixpoint awaits_at_most {A} (n : nat) (p : prog A) : Prop :=
  match p with
  | Ret _ | Throw _ => True
  | Do _ k => awaits_at_most n k
  | Await _ k =>
      match n with
      | O => False
      | S m => forall settled, awaits_at_most m (k settled)
      end
  end.

(** The setters of the query text and of the copied index. *)
Definition sets_query_or_copied (c : call) : bool :=
  match c with
  | SetUsername _ | SetCopiedIndex _ => true
  | _ => false
  end.

(** The setters of the profile and of the repositories. *)
Definition sets_data (c : call) : bool :=
  match c with
  | SetUserData _ | SetRepos _ => true
  | _ => false
  end.

(** The state an analysis of a non-empty query is in while it waits for the
    profile: loading, everything of the previous cycle reset. *)
Definition loading_state (c : UIState) : UIState :=
  mkState (username c) JNull (JArr []) (JArr []) true None (copiedIndex c).

(** The state an analysis is in once both fetches succeeded. *)
Definition fetched_state (c : UIState) (profile repositories : value) : UIState :=
  mkState (username c) profile repositories (JArr []) true None (copiedIndex c).




(** The address of the profile request. *)
Definition profile_address (c : UIState) : string :=
  "https://api.github.com/users/" ++ username c.

(** The integer a decimal text denotes. *)
Definition Z_of_string (text : string) : option Z :=
  option_map Z.of_int (NilZero.int_of_string text).

(** What follows [prefix] in [s], when [s] starts with it. *)
Fixpoint after_prefix (prefix s : string) : option string :=
  match prefix, s with
  | EmptyString, _ => Some s
  | String a prefix', String b s' =>
      if Ascii.eqb a b then after_prefix prefix' s' else None
  | String _ _, EmptyString => None
  end.

(** The status a profile-fetch error message names. *)
Definition status_in_profile_error (o : outcome) : Z :=
  match error (final o) with
  | Some msg =>
      if String.eqb msg (message UserNotFound) then 404
      else match after_prefix "Failed to fetch GitHub user data. Status: " msg with
           | Some digits =>
               match Z_of_string digits with Some code => code | None => 0 end
           | None => 0
           end
  | None => 0
  end.

(** The status a generation error message names. *)
Definition status_in_generation_error (o : outcome) : Z :=
  match error (final o) with
  | Some msg =>
      if String.eqb msg restricted_message then 403
      else match after_prefix "AI API call failed with status: " msg with
           | Some digits =>
               match Z_of_string digits with Some code => code | None => 0 end
           | None => 0
           end
  | None => 0
  end.

(** ** Inside the results panel

    The results panel is drawn in two steps.  First the component function
    evaluates its JSX: the expressions in braces are read off the state and
    the elements are created, which converts each [key] to a string
    ([results_markup_of]).  Then React mounts the elements ([mount]).  An
    exception thrown in either step is caught by nothing, and React then
    removes the whole page. *)

Record profile_card : Type := mkProfileCard {
  avatar_src : value;        (* userData.avatar_url *)
  avatar_alt : value;        (* userData.login *)
  display_name : value;      (* userData.name || userData.login *)
  login_line : value;        (* userData.login, after the at sign *)
  bio_line : value           (* userData.bio || 'No bio provided.' *)
}.

Record suggestion_card : Type := mkSuggestionCard {
  suggestion_key : nat;      (* index *)
  suggestion_title : value;  (* s.title *)
  copy_label : string;       (* copiedIndex === index ? 'Copied!' : 'Copy Markdown' *)
  snippet : value            (* s.markdown, shown and handed to the copy handler *)
}.

Record repo_card : Type := mkRepoCard {
  repo_key : option string;  (* repo.id, as a key *)
  repo_link : value;         (* repo.html_url *)
  repo_name : value;         (* repo.name *)
  repo_description : value;  (* repo.description || 'No description.' *)
  repo_language : value;     (* repo.language || 'N/A' *)
  repo_stars : value;        (* repo.stargazers_count *)
  repo_forks : value         (* repo.forks_count *)
}.

Record results_markup : Type := mkMarkup {
  card : profile_card;
  suggestion_list : option (list suggestion_card);
  repo_grid : option (list repo_card)
}.

(** The cards a list section draws: none when the section is absent. *)
Definition cards_of {A} (section : option (list A)) : list A :=
  match section with
  | Some cards => cards
  | None => []
  end.

Section Markup.
Context {engine : Engine}.

(** The items of [items.map((item, index) => f index item)], from [index]
    on. *)
Fixpoint map_indexed {A} (f : nat -> value -> completion A) (index : nat)
         (items : list value) : completion (list A) :=
  match items with
  | [] => Normal []
  | item :: rest =>
      let* y := f index item in
      let* ys := map_indexed f (S index) rest in
      Normal (y :: ys)
  end.

(** [v.length > 0 && (... v.map(f) ...)] where the source text of [v] is
    [expr]: [None] is the [false] that draws nothing. *)
Definition listing {A} (expr : string) (v : value)
           (f : nat -> value -> completion A) : completion (option (list A)) :=
  let* len := get v "length" in
  let* positive := exceeds_zero len in
  if positive then
    match v with
    | JUndefined | JNull => Abrupt (cannot_read v "map")
    | JArr items =>
        let* cards := map_indexed f O items in
        Normal (Some cards)
    | _ => Abrupt (not_a_function (expr ++ ".map"))
    end
  else Normal None.

(** What creating an element does with its [key]: [undefined] is no key,
    any other value is converted to a string. *)
Definition key_of (v : value) : completion (option string) :=
  match v with
  | JUndefined => Normal None
  | _ => let* text := ToString v in Normal (Some text)
  end.

Definition profile_card_of (userData : value) : completion profile_card :=
  let* avatar_url := get userData "avatar_url" in
  let* alt := get userData "login" in
  let* name := js_or (get userData "name") (get userData "login") in
  let* login := get userData "login" in
  let* bio := js_or (get userData "bio") (Normal (JStr "No bio provided.")) in
  Normal (mkProfileCard avatar_url alt name login bio).

(** [copiedIndex === index ? 'Copied!' : 'Copy Markdown'] *)
Definition copy_label_for (copiedIndex : option nat) (index : nat) : string :=
  match copiedIndex with
  | Some i => if Nat.eqb i index then "Copied!" else "Copy Markdown"
  | None => "Copy Markdown"
  end.

Definition suggestion_card_of (copiedIndex : option nat) (index : nat) (s : value)
  : completion suggestion_card :=
  let* title := get s "title" in
  let* markdown := get s "markdown" in
  Normal (mkSuggestionCard index title (copy_label_for copiedIndex index) markdown).

(** The properties of [repo] are read in source order; the outer element is
    created last, and with it the key. *)
Definition repo_card_of (index : nat) (repo : value) : completion repo_card :=
  let* id := get repo "id" in
  let* html_url := get repo "html_url" in
  let* name := get repo "name" in
  let* description :=
    js_or (get repo "description") (Normal (JStr "No description.")) in
  let* language := js_or (get repo "language") (Normal (JStr "N/A")) in
  let* stars := get repo "stargazers_count" in
  let* forks := get repo "forks_count" in
  let* key := key_of id in
  Normal (mkRepoCard key html_url name description language stars forks).

(** The children of the results panel mounted with [r], in source order. *)
Definition results_markup_of (r : results) : completion results_markup :=
  let* profile := profile_card_of (shown_profile r) in
  let* suggestion_cards :=
    listing "suggestions" (shown_suggestions r)
            (suggestion_card_of (shown_copied r)) in
  let* repo_cards := listing "repos" (shown_repos r) repo_card_of in
  Normal (mkMarkup profile suggestion_cards repo_cards).

(** A value given to React as a child, in braces: a string or a number is
    drawn as text, a boolean, [null] and [undefined] as nothing, an array
    item by item; an object is refused with an error. *)
Fixpoint child (v : value) : completion unit :=
  match v with
  | JObj _ => Abrupt (invalid_child v)
  | JArr items =>
      (fix each (l : list value) : completion unit :=
         match l with
         | [] => Normal tt
         | item :: rest =>
             let* _ := child item in
             each rest
         end) items
  | _ => Normal tt
  end.

(** A value given as an attribute of an element: writing it converts an
    object or an array to a string, which can throw; no other value can make
    it throw. *)
Definition attribute (v : value) : completion unit :=
  match v with
  | JArr _ | JObj _ =>
      let* _ := ToString v in
      Normal tt
  | _ => Normal tt
  end.

(** One after the other, the first throw wins. *)
Fixpoint each {A} (f : A -> completion unit) (l : list A) : completion unit :=
  match l with
  | [] => Normal tt
  | a :: rest =>
      let* _ := f a in
      each f rest
  end.

(** React visits the elements in document order and writes the attributes of
    an element after its children. *)
Definition mount_profile (p : profile_card) : completion unit :=
  let* _ := attribute (avatar_src p) in
  let* _ := attribute (avatar_alt p) in
  let* _ := child (display_name p) in
  let* _ := child (login_line p) in
  child (bio_line p).

Definition mount_suggestion (s : suggestion_card) : completion unit :=
  let* _ := child (suggestion_title s) in
  child (snippet s).

Definition mount_repo (r : repo_card) : completion unit :=
  let* _ := child (repo_name r) in
  let* _ := attribute (repo_link r) in
  let* _ := child (repo_description r) in
  let* _ := child (repo_language r) in
  let* _ := child (repo_stars r) in
  child (repo_forks r).

Definition mount (m : results_markup) : completion unit :=
  let* _ := mount_profile (card m) in
  let* _ := each mount_suggestion (cards_of (suggestion_list m)) in
  each mount_repo (cards_of (repo_grid m)).

(** The results panel of the page in state [st]: not selected, drawn with
    its children, or a throw that leaves the page blank.  The rest of the
    page is fixed markup around [username] and [error], which are strings:
    nothing else can throw while the page is drawn. *)
Definition markup (st : UIState) : completion (option results_markup) :=
  match results_panel (render st) with
  | None => Normal None
  | Some r =>
      let* m := results_markup_of r in
      let* _ := mount m in
      Normal (Some m)
  end.

End Markup.

(** ** Copy to clipboard *)

Definition setCopiedIndex (i : option nat) : prog unit :=
  Do (SetCopiedIndex i) (Ret tt).

(** How [document.execCommand('copy')] ends: it returns whether the copy
    was done, or it throws. *)
Inductive command_result : Type :=
| Returned (done : bool)
| Raised (e : exn).

(** What the copy handler does to the document and to the console. *)
Inductive dom_event : Type :=
| Appended (text : string)  (* a textarea whose value was set to [text],
                               appended to the body *)
| Selected                  (* textArea.select() *)
| Commanded                 (* document.execCommand('copy') *)
| Reported (e : exn)        (* console.error('Failed to copy text: ', err) *)
| Removed.                  (* the textarea removed from the body *)

(** A timer set by [setTimeout]: when it is due, in milliseconds, and what
    it runs. *)
Record timer : Type := mkTimer {
  due : Z;
  callback : prog unit
}.

(** The page as the copy handler sees it: the state cells, the clock, the
    timers set and not yet run (in the order set) and what happened to the
    document (oldest first). *)
Record page : Type := mkPage {
  cells : UIState;
  clock : Z;
  timers : list timer;
  document_log : list dom_event
}.

(** Textareas the log leaves attached to the body. *)
Fixpoint attached (log : list dom_event) : Z :=
  match log with
  | [] => 0
  | Appended _ :: rest => attached rest + 1
  | Removed :: rest => attached rest - 1
  | _ :: rest => attached rest
  end.

Section Copy.
Context {engine : Engine}.

(** What [textArea.value = text] stores: the setter reads [null] as the
    empty string and converts anything else as [String] does. *)
Definition textarea_value (text : value) : completion string :=
  match text with
  | JNull => Normal ""
  | _ => ToString text
  end.

(** [handleCopyToClipboard(text, index)], the copy command ending as
    [result]. *)
Definition handleCopyToClipboard (result : command_result) (text : value)
           (index : nat) (p : page) : completion page :=
  let* stored := textarea_value text in
  let log := (document_log p ++ [Appended stored; Selected; Commanded])%list in
  match result with
  | Returned _ =>
      Normal (mkPage (apply_call (SetCopiedIndex (Some index)) (cells p))
                     (clock p)
                     (timers p
                      ++ [mkTimer (clock p + 2000) (setCopiedIndex None)])%list
                     (log ++ [Removed])%list)
  | Raised err =>
      Normal (mkPage (cells p) (clock p) (timers p)
                     (log ++ [Reported err; Removed])%list)
  end.

(** A click on the copy button of the suggestion at [index]; without such a
    button nothing happens. *)
Definition click_copy (result : command_result) (index : nat) (p : page)
  : completion page :=
  match markup (cells p) with
  | Normal (Some m) =>
      match suggestion_list m with
      | Some cards =>
          match nth_error cards index with
          | Some shown => handleCopyToClipboard result (snippet shown) index p
          | None => Normal p
          end
      | None => Normal p
      end
  | _ => Normal p
  end.

End Copy.

Definition is_due (t : Z) (tm : timer) : bool := due tm <=? t.

(** The clock reaches [t]: the timers due by then run, in the order set, and
    are dropped. *)
Definition run_timers (t : Z) (p : page) : page :=
  mkPage (fold_left (fun st tm => fst (sync (callback tm) st))
                    (filter (is_due t) (timers p)) (cells p))
         t
         (filter (fun tm => negb (is_due t tm)) (timers p))
         (document_log p).

(** [ms] milliseconds pass. *)
Definition wait (ms : Z) (p : page) : page := run_timers (clock p + ms) p.

(** A page just loaded. *)
Definition opened : page := mkPage initial 0 [] [].

(** ** Vocabulary for the results panel and the copy handler *)

(** [null] or [undefined]: the values a property cannot be read of. *)
Definition nullish (v : value) : bool :=
  match v with
  | JUndefined | JNull => true
  | _ => false
  end.

(** A string, a number, a boolean, [null] or [undefined]. *)
Definition primitive (v : value) : bool :=
  match v with
  | JArr _ | JObj _ => false
  | _ => true
  end.

(** Each of the named properties of [v] can be read and holds a
    primitive. *)
Definition plain_fields {engine : Engine} (names : list string) (v : value)
  : bool :=
  forallb (fun p => match get v p with
                    | Normal x => primitive x
                    | Abrupt _ => false
                    end) names.

(** Two states that differ at most in the copied index. *)
Definition same_but_copied (st st' : UIState) : Prop :=
  username st' = username st
  /\ userData st' = userData st
  /\ repos st' = repos st
  /\ suggestions st' = suggestions st
  /\ isLoading st' = isLoading st
  /\ error st' = error st.

(** Every timer of the page was set by the copy handler. *)
Definition copy_timers (p : page) : Prop :=
  Forall (fun tm => callback tm = setCopiedIndex None) (timers p).

(** ** Pages a visitor can reach *)

(** Anything that can happen to a page: an event, or a request in flight
    settling. *)
Inductive step {engine : Engine} : controller -> controller -> Prop :=
| by_event (c : controller) (ev : event) : step c (dispatch ev c)
| by_settling (c : controller) (i : nat) (x : fetch_result) :
    step c (settle i x c).

Inductive reachable {engine : Engine} : controller -> Prop :=
| reached_fresh : reachable fresh
| reached_step (c c' : controller) : reachable c -> step c c' -> reachable c'.

(** No analysis in flight will ever set the query text or the copied
    index. *)
Definition flights_keep_query (c : controller) : Prop :=
  Forall (fun flight : request * (fetch_result -> prog unit) =>
            forall settled, never_calls sets_query_or_copied (snd flight settled))
         (in_flight c).

(** ** More sample pages *)

Module Examples.

Import Sample.

(** A page showing the results of an earlier analysis of the same query,
    with other data and an old error. *)
Definition other_results : UIState :=
  mkState "octocat" (JObj [("login", JStr "octocat")]) (JArr []) (JArr [])
          false (Some "AI failed to generate valid suggestions.") None.

(** The rejection of a [fetch] that could not reach the network. *)
Definition network_down : exn := mkExn TypeError "Failed to fetch".

(** A generation body with neither candidates nor feedback. *)
Definition empty_answer : value := JObj [].

(** The results page, with its clock, no timer and an untouched document. *)
Definition results_page : page := mkPage showing_results 0 [] [].

Definition results_shown : results :=
  mkResults profile one_suggestion two_repos None.

(** The card of the one suggestion, and the whole panel as drawn. *)
Definition first_card : suggestion_card :=
  mkSuggestionCard 0 (JStr "Show your stack") "Copy Markdown"
                   (JStr "![Ruby](https://skillicons.dev/icons?i=ruby)").

Definition drawn_repo (id name : string) : repo_card :=
  mkRepoCard (Some id) (JStr ("https://github.com/octocat/" ++ name)) (JStr name)
             (JStr "No description.") (JStr "Ruby") (num 7) (num 2).

Definition results_drawn : results_markup :=
  mkMarkup
    (mkProfileCard (JStr "https://avatars.githubusercontent.com/u/583231")
                   (JStr "octocat") (JStr "The Octocat") (JStr "octocat")
                   (JStr "No bio provided."))
    (Some [first_card])
    (Some [drawn_repo "1" "hello-world"; drawn_repo "2" "spoon-knife"]).

(** The controller after the query was typed and Enter pressed. *)
Definition loading_octocat : controller :=
  dispatch (engine := Reference.engine) (KeyPress "Enter")
           (dispatch (engine := Reference.engine) (Change "octocat") fresh).

(** The controller after the query was typed and the button clicked. *)
Definition clicked_octocat : controller :=
  dispatch (engine := Reference.engine) Click
           (dispatch (engine := Reference.engine) (Change "octocat") fresh).

End Examples.

(** * Properties *)

(** ** Numbers *)

(** The double nearest to a positive integer exceeds zero: rounding shifts
    the integer right by fewer bits than it has, so a mantissa is left. *)
Lemma digits2_size (p : positive) : digits2_pos p = Pos.size p.
Proof. induction p; cbn; congruence. Qed.

Lemma shr_1_m (mrs : shr_record) :
  0 <= shr_m mrs -> shr_m (shr_1 mrs) = Z.div2 (shr_m mrs).
Proof.
  destruct mrs as [m r s]. cbn. intros H.
  destruct m as [| [p | p |] | p]; cbn; try reflexivity; lia.
Qed.

Lemma iter_pos_iter {A} (f : A -> A) (p : positive) (x : A) :
  iter_pos f p x = Pos.iter f x p.
Proof.
  revert x. induction p; intros x; cbn.
  - rewrite !IHp. rewrite <- !Pos.iter_swap. reflexivity.
  - rewrite !IHp. reflexivity.
  - reflexivity.
Qed.

Lemma shr_iter_m (p : positive) (mrs : shr_record) :
  0 <= shr_m mrs ->
  shr_m (iter_pos shr_1 p mrs) = Z.shiftr (shr_m mrs) (Zpos p).
Proof.
  rewrite iter_pos_iter. revert mrs.
  induction p using Pos.peano_ind; intros mrs H.
  - cbn [Pos.iter]. rewrite shr_1_m by exact H. rewrite Z.div2_spec. reflexivity.
  - rewrite Pos.iter_succ. rewrite shr_1_m.
    + rewrite IHp by exact H. rewrite Z.div2_spec, Z.shiftr_shiftr by lia.
      f_equal. lia.
    + rewrite IHp by exact H. apply Z.shiftr_nonneg. exact H.
Qed.

Lemma size_lower (p : positive) : 2 ^ (Zpos (Pos.size p) - 1) <= Zpos p.
Proof.
  pose proof (Pos.size_le p) as H.
  assert (H' : 2 ^ Zpos (Pos.size p) <= 2 * Zpos p).
  { change 2 with (Zpos 2) at 1. rewrite <- Pos2Z.inj_pow.
    change (2 * Zpos p) with (Zpos p~0). apply Pos2Z.pos_le_pos. exact H. }
  replace (Zpos (Pos.size p)) with (Zpos (Pos.size p) - 1 + 1) in H' by lia.
  rewrite Z.pow_add_r in H' by lia. lia.
Qed.

Lemma shr_fexp_positive (p : positive) (e : Z) (l : location) :
  -1074 <= e ->
  0 < shr_m (fst (shr_fexp 53 1024 (Zpos p) e l))
  /\ -1074 <= snd (shr_fexp 53 1024 (Zpos p) e l).
Proof.
  intros He. unfold shr_fexp, shr, fexp, emin, Zdigits2.
  rewrite digits2_size.
  assert (Hm : shr_m (shr_record_of_loc (Zpos p) l) = Zpos p).
  { destruct l as [| []]; reflexivity. }
  destruct (Z.max (Zpos (Pos.size p) + e - 53) (3 - 1024 - 53) - e) as [| k | k] eqn:Hn;
    cbn [fst snd]; try (rewrite Hm; lia).
  split; [| lia].
  rewrite shr_iter_m by (rewrite Hm; lia). rewrite Hm.
  rewrite Z.shiftr_div_pow2 by lia.
  apply Z.div_str_pos. split; [apply Z.pow_pos_nonneg; lia |].
  transitivity (2 ^ (Zpos (Pos.size p) - 1)); [| apply size_lower].
  apply Z.pow_le_mono_r; lia.
Qed.

Lemma binary_round_aux_positive (p : positive) (e : Z) (l : location) :
  -1074 <= e ->
  positive_number (binary_round_aux 53 1024 false (Zpos p) e l) = true.
Proof.
  intros He. unfold binary_round_aux.
  destruct (shr_fexp_positive p e l He) as [Hm1 He1].
  destruct (shr_fexp 53 1024 (Zpos p) e l) as [mrs1 e1]. cbn [fst snd] in *.
  assert (Hr : 0 < round_nearest_even (shr_m mrs1) (loc_of_shr_record mrs1)).
  { unfold round_nearest_even.
    destruct (loc_of_shr_record mrs1) as [| []]; try lia.
    destruct (Z.even (shr_m mrs1)); lia. }
  destruct (round_nearest_even (shr_m mrs1) (loc_of_shr_record mrs1)) as [| q | q];
    try lia.
  destruct (shr_fexp_positive q e1 loc_Exact He1) as [Hm2 _].
  destruct (shr_fexp 53 1024 (Zpos q) e1 loc_Exact) as [mrs2 e2]. cbn [fst snd] in *.
  destruct (shr_m mrs2) as [| m | m]; try lia.
  destruct (e2 <=? 1024 - 53); reflexivity.
Qed.

Lemma number_of_Z_positive (n : Z) :
  0 < n -> positive_number (number_of_Z n) = true.
Proof.
  intros Hn. destruct n as [| p | p]; try lia.
  unfold number_of_Z, binary_normalize, binary_round, shl_align.
  destruct (fexp 53 1024 (Zpos (digits2_pos p) + 0) - 0) as [| d | d] eqn:Hd;
    apply binary_round_aux_positive; try lia.
  unfold fexp, emin. lia.
Qed.

(** A sequence with an entry has a length that exceeds zero. *)
Lemma length_positive (n : nat) :
  positive_number (number_of_Z (Z.of_nat (S n))) = true.
Proof. apply number_of_Z_positive. lia. Qed.

(** A string that is not empty has a code unit. *)
Lemma string_length_positive (s : string) :
  s <> "" -> exists n, string_length s = S n.
Proof.
  unfold string_length. destruct s as [| a rest]; [congruence | intros _].
  cbn -[N.ltb N.leb N.mul N.add N.sub N.div N.modulo].
  destruct (N_of_ascii a <? 224)%N.
  - destruct rest as [| b rest']; [eexists; reflexivity |].
    destruct (192 <=? N_of_ascii a)%N; eexists; reflexivity.
  - destruct (N_of_ascii a <? 240)%N.
    + destruct rest as [| b [| c rest']]; eexists; reflexivity.
    + destruct rest as [| b [| c [| d rest']]]; eexists; reflexivity.
Qed.

(** ** Strings *)

Lemma truthy_string_nonempty (s : string) : s <> "" -> truthy_string s = true.
Proof. destruct s; [congruence | reflexivity]. Qed.

Lemma truthy_string_empty (s : string) : s = "" -> truthy_string s = false.
Proof. intros ->. reflexivity. Qed.

(** ** Status codes *)

Lemma ok_iff (code : Z) (body : completion value) :
  ok (mkResponse code body) = true <-> 200 <= code <= 299.
Proof.
  unfold ok; cbn. rewrite andb_true_iff, !Z.leb_le. tauto.
Qed.

Lemma ok_success (code : Z) (body : completion value) :
  200 <= code <= 299 -> ok (mkResponse code body) = true.
Proof. apply ok_iff. Qed.

Lemma ok_failure (code : Z) (body : completion value) :
  code < 200 \/ 299 < code -> ok (mkResponse code body) = false.
Proof.
  intros H. destruct (ok (mkResponse code body)) eqn:E; [| reflexivity].
  apply ok_iff in E. lia.
Qed.

Lemma success_not_404 (code : Z) : 200 <= code <= 299 -> (code =? 404) = false.
Proof. intros H. apply Z.eqb_neq. lia. Qed.

Lemma success_not_403 (code : Z) : 200 <= code <= 299 -> (code =? 403) = false.
Proof. intros H. apply Z.eqb_neq. lia. Qed.

(** ** Events reach [handleAnalyze] *)

Section Submission.
Context {engine : Engine}.

(** The button is inert while an analysis is loading. *)
Lemma click_while_loading (c : controller) :
  isLoading (ui c) = true -> dispatch Click c = c.
Proof.
  intros H. unfold dispatch, handler, start. rewrite H. cbn.
  destruct c; reflexivity.
Qed.

(** The Enter key runs [handleAnalyze] whatever the state. *)
Lemma enter_runs_handleAnalyze (c : controller) :
  handler (ui c) (KeyPress "Enter") = handleAnalyze (ui c).
Proof. reflexivity. Qed.

Lemma click_runs_handleAnalyze (c : controller) :
  isLoading (ui c) = false -> handler (ui c) Click = handleAnalyze (ui c).
Proof. intros H. unfold handler. rewrite H. reflexivity. Qed.

(** The synchronous start of an analysis of a non-empty query: five setter
    calls, then the profile request. *)
Lemma handleAnalyze_start (c st : UIState) :
  truthy_string (username c) = true ->
  exists k,
    sync (handleAnalyze c) st
    = (mkState (username st) JNull (JArr []) (JArr []) true None (copiedIndex st),
       Waiting (GET ("https://api.github.com/users/" ++ username c)) k).
Proof.
  intros H. unfold handleAnalyze. rewrite H. cbn -[String.append].
  eexists. reflexivity.
Qed.

(** The Enter key starts an analysis of a non-empty query whether or not one
    is loading already. *)
Lemma enter_starts_analysis (c : controller) :
  username (ui c) <> "" ->
  exists k,
    in_flight (dispatch (KeyPress "Enter") c)
    = (in_flight c
       ++ [(GET ("https://api.github.com/users/" ++ username (ui c)), k)])%list.
Proof.
  intros Hquery.
  destruct (handleAnalyze_start (ui c) (ui c)
              (truthy_string_nonempty _ Hquery)) as [k Hk].
  exists k. unfold dispatch, start.
  rewrite enter_runs_handleAnalyze, Hk. reflexivity.
Qed.

(** An empty query: one setter call and nothing else. *)
Lemma handleAnalyze_empty (c : UIState) :
  username c = "" -> handleAnalyze c = setError (Some validation_message).
Proof. intros H. unfold handleAnalyze. rewrite H. reflexivity. Qed.

End Submission.

(** ** Submitting an empty query *)

Section EmptyQuery.
Context {engine : Engine}.

(** C3, as amended.  Submitting the empty query issues no request, whatever
    the network would have answered, and stores the validation message as
    the error; the alarming error box shows it unless an analysis is
    loading.  (A query made of blanks is not empty for [handleAnalyze].) *)
Theorem C3_empty_query_rejected (c : UIState) (settled : list fetch_result) :
  username c = "" ->
  sent (analyze c settled) = []
  /\ ended (analyze c settled) = Completed
  /\ error (final (analyze c settled)) = Some validation_message
  /\ error_panel (render (final (analyze c settled)))
     = if isLoading c then None else Some (Alarming, validation_message).
Proof.
  intros H. unfold analyze. rewrite (handleAnalyze_empty c H). cbn.
  repeat split. unfold render; cbn. destruct (isLoading c); reflexivity.
Qed.

(** C10.  Submitting the empty query overwrites the error cell and no other:
    the loading flag, the profile, the repositories, the suggestions and the
    copied index keep their values, so a results panel that was showing
    stays mounted with the same data, under the validation error. *)
Theorem C10_empty_query_changes_only_error (c : UIState) (settled : list fetch_result) :
  username c = "" ->
  final (analyze c settled)
  = mkState (username c) (userData c) (repos c) (suggestions c) (isLoading c)
            (Some validation_message) (copiedIndex c)
  /\ results_panel (render (final (analyze c settled))) = results_panel (render c)
  /\ (in_results c = true ->
      results_panel (render (final (analyze c settled)))
      = Some (mkResults (userData c) (suggestions c) (repos c) (copiedIndex c))
      /\ error_panel (render (final (analyze c settled)))
         = Some (Alarming, validation_message)).
Proof.
  intros H. unfold analyze. rewrite (handleAnalyze_empty c H). cbn.
  split; [reflexivity |]. split; [reflexivity |].
  unfold in_results, render; cbn. intros Hres.
  apply andb_true_iff in Hres as [Hload Hdata].
  apply negb_true_iff in Hload. rewrite Hload, Hdata. cbn. split; reflexivity.
Qed.

End EmptyQuery.

(** ** Submitting a non-empty query *)

Section NewCycle.
Context {engine : Engine}.

(** C7.  A submission of a non-empty query from the error view or the
    results view, by the button or by the Enter key, leaves the controller
    loading with the error, the profile, the repositories and the
    suggestions of the previous cycle all reset, and only then waiting for
    the profile request: the page shows the loading panel alone. *)
Theorem C7_submit_clears_previous_cycle (c : controller) (ev : event) :
  ev = Click \/ ev = KeyPress "Enter" ->
  username (ui c) <> "" ->
  in_error (ui c) = true \/ in_results (ui c) = true ->
  exists k,
    dispatch ev c
    = mkController
        (mkState (username (ui c)) JNull (JArr []) (JArr []) true None
                 (copiedIndex (ui c)))
        (in_flight c
         ++ [(GET ("https://api.github.com/users/" ++ username (ui c)), k)])
    /\ render (ui (dispatch ev c)) = mkView true true false None None.
Proof.
  intros Hev Hquery Hview.
  assert (Hidle : isLoading (ui c) = false).
  { unfold in_error, in_results in Hview.
    destruct (isLoading (ui c)); [| reflexivity].
    destruct Hview as [Hv | Hv]; discriminate Hv. }
  assert (Hrun : handler (ui c) ev = handleAnalyze (ui c)).
  { destruct Hev as [-> | ->];
      [apply click_runs_handleAnalyze; exact Hidle | reflexivity]. }
  destruct (handleAnalyze_start (ui c) (ui c)
              (truthy_string_nonempty _ Hquery)) as [k Hk].
  exists k. unfold dispatch, start. rewrite Hrun, Hk. cbn -[String.append].
  split; reflexivity.
Qed.

End NewCycle.

(** ** The three phases of an analysis *)

(** Run a handler as far as it computes, keeping the JavaScript operations
    and the [catch] block folded. *)
Ltac run :=
  cbn -[get at_index ToString ok call_map content_guard first_part_text
        block_guard parse_text repositories_address prompt_of js_or on_error
        generate accept apiUrl String.append string_of_Z shown_message].

Section Phases.
Context {engine : Engine}.

(** A value that answered one property read answers them all. *)
Lemma get_defined (v : value) (p q : string) (x : value) :
  get v p = Normal x -> exists y, get v q = Normal y.
Proof.
  destruct v; cbn; intros H; try discriminate H; eexists; reflexivity.
Qed.

Lemma js_or_defined (v : value) (p q r : string) (x : value) :
  get v p = Normal x -> exists y, js_or (get v q) (get v r) = Normal y.
Proof.
  intros H.
  destruct (get_defined v p q x H) as [a Ha].
  destruct (get_defined v p r x H) as [b Hb].
  unfold js_or. rewrite Ha, Hb. cbn.
  destruct (truthy a); eexists; reflexivity.
Qed.

(** A profile that gave the address of its repositories is neither [null]
    nor [undefined]. *)
Lemma address_defined (profile : value) (address : string) :
  repositories_address profile = Normal address ->
  exists url, get profile "repos_url" = Normal url.
Proof.
  unfold repositories_address. intros H.
  destruct (get profile "repos_url") as [url | e]; [| discriminate H].
  exists url. reflexivity.
Qed.

(** The [catch] block followed by the [finally] block. *)
Lemma caught (c : UIState) (err : exn) (settled : list fetch_result) (st : UIState) :
  exec (finally (on_error c err) (setIsLoading false)) settled st
  = mkOutcome (after_error c err st) [] Completed.
Proof.
  unfold on_error, after_error, shown_message.
  destruct (String.eqb (message err) "API_KEY_RESTRICTED");
    destruct (truthy (userData c)); reflexivity.
Qed.

(** Step 1 with both fetches succeeding: the fetched data is stored and the
    run goes on with step 2. *)
Lemma github_phase (c : UIState) (code1 code2 : Z) (profile repositories : value)
      (address : string) (rest : list fetch_result) :
  truthy_string (username c) = true ->
  200 <= code1 <= 299 ->
  200 <= code2 <= 299 ->
  repositories_address profile = Normal address ->
  analyze c (success code1 profile :: success code2 repositories :: rest)
  = let o := exec (finally (try_catch (generate profile repositories) (on_error c))
                           (setIsLoading false))
                  rest
                  (mkState (username c) profile repositories (JArr []) true None
                           (copiedIndex c)) in
    mkOutcome (final o)
              (GET ("https://api.github.com/users/" ++ username c)
               :: GET address :: sent o)
              (ended o).
Proof.
  intros Hquery H1 H2 Haddress. unfold analyze, handleAnalyze. rewrite Hquery. run.
  rewrite (success_not_404 _ H1). run. rewrite (ok_success _ _ H1). run.
  rewrite Haddress. run. rewrite (ok_success _ _ H2). run. reflexivity.
Qed.

(** Step 2 up to the generation request, when the prompt is built. *)
Lemma generation_request (c : UIState) (profile repositories : value)
      (prompt : prompt_data) (x : response) (rest : list fetch_result)
      (st : UIState) :
  prompt_of profile repositories = Normal prompt ->
  exec (finally (try_catch (generate profile repositories) (on_error c))
                (setIsLoading false))
       (Resolved x :: rest) st
  = let o := accepted c x rest st in
    mkOutcome (final o) (POST apiUrl prompt :: sent o) (ended o).
Proof.
  intros Hprompt. unfold generate. rewrite Hprompt. run. reflexivity.
Qed.

(** Step 2 when building the prompt throws: no request is sent. *)
Lemma prompt_throws (c : UIState) (profile repositories : value) (e : exn)
      (rest : list fetch_result) (st : UIState) :
  prompt_of profile repositories = Abrupt e ->
  exec (finally (try_catch (generate profile repositories) (on_error c))
                (setIsLoading false))
       rest st
  = mkOutcome (after_error c e st) [] Completed.
Proof.
  intros Hprompt. unfold generate. rewrite Hprompt. run. apply caught.
Qed.

(** When the guard of the [if] is truthy it is the text of the first part. *)
Lemma guard_is_text (result text : value) :
  content_guard result = Normal text -> truthy text = true ->
  first_part_text result = Normal text.
Proof.
  unfold content_guard, js_and. intros H Htext.
  destruct (get result "candidates") as [candidates | e]; cbn in H;
    [| discriminate H].
  destruct (truthy candidates) eqn:Hc; cbn in H.
  - destruct (get candidates "length") as [len | e]; cbn in H;
      [| discriminate H].
    destruct (exceeds_zero len) as [positive | e]; cbn in H;
      [| discriminate H].
    destruct positive; cbn in H; [exact H |].
    injection H as <-. discriminate Htext.
  - rewrite Hc in H. injection H as <-. congruence.
Qed.

(** When the block guard is truthy it is the block reason of the feedback. *)
Lemma guard_is_reason (result reason : value) :
  block_guard result = Normal reason -> truthy reason = true ->
  exists feedback,
    get result "promptFeedback" = Normal feedback
    /\ get feedback "blockReason" = Normal reason.
Proof.
  unfold block_guard, js_and. intros H Hreason.
  destruct (get result "promptFeedback") as [feedback | e]; cbn in H;
    [| discriminate H].
  exists feedback. split; [reflexivity |].
  destruct (truthy feedback) eqn:Hf; cbn in H; [exact H |].
  injection H as <-. congruence.
Qed.

(** *** The generation response, case by case *)

Section Accept.
Variables (c : UIState) (rest : list fetch_result) (st : UIState).

Lemma accept_forbidden (body : completion value) :
  accepted c (mkResponse 403 body) rest st
  = mkOutcome (after_error c GenerationForbidden st) [] Completed.
Proof. unfold accepted, accept. run. apply caught. Qed.

Lemma accept_failed (code : Z) (body : completion value) :
  code < 200 \/ 299 < code -> code <> 403 ->
  accepted c (mkResponse code body) rest st
  = mkOutcome (after_error c (GenerationFailed code) st) [] Completed.
Proof.
  intros Hcode H403. unfold accepted, accept. run.
  rewrite (proj2 (Z.eqb_neq code 403) H403). run.
  rewrite (ok_failure _ _ Hcode). run. apply caught.
Qed.

Lemma accept_unreadable (code : Z) (e : exn) :
  200 <= code <= 299 ->
  accepted c (mkResponse code (Abrupt e)) rest st
  = mkOutcome (after_error c e st) [] Completed.
Proof.
  intros Hcode. unfold accepted, accept. run.
  rewrite (success_not_403 _ Hcode). run. rewrite (ok_success _ _ Hcode). run.
  apply caught.
Qed.

Lemma accept_guard_throws (code : Z) (result : value) (e : exn) :
  200 <= code <= 299 ->
  content_guard result = Abrupt e ->
  accepted c (mkResponse code (Normal result)) rest st
  = mkOutcome (after_error c e st) [] Completed.
Proof.
  intros Hcode Hguard. unfold accepted, accept. run.
  rewrite (success_not_403 _ Hcode). run. rewrite (ok_success _ _ Hcode). run.
  rewrite Hguard. run. apply caught.
Qed.

Lemma accept_parsed (code : Z) (result text parsed : value) :
  200 <= code <= 299 ->
  content_guard result = Normal text -> truthy text = true ->
  parse_text text = Normal parsed ->
  accepted c (mkResponse code (Normal result)) rest st
  = mkOutcome (mkState (username st) (userData st) (repos st) parsed false
                       (error st) (copiedIndex st)) [] Completed.
Proof.
  intros Hcode Hguard Htext Hparse. unfold accepted, accept. run.
  rewrite (success_not_403 _ Hcode). run. rewrite (ok_success _ _ Hcode). run.
  rewrite Hguard. run. rewrite Htext, (guard_is_text _ _ Hguard Htext). run.
  rewrite Hparse. run. reflexivity.
Qed.


Lemma accept_blocked (code : Z) (result guard reason : value) (words : string) :
  200 <= code <= 299 ->
  content_guard result = Normal guard -> truthy guard = false ->
  block_guard result = Normal reason -> truthy reason = true ->
  ToString reason = Normal words ->
  accepted c (mkResponse code (Normal result)) rest st
  = mkOutcome (after_error c (ContentBlocked words) st) [] Completed.
Proof.
  intros Hcode Hguard Hfalsy Hblock Hreason Hwords. unfold accepted, accept. run.
  rewrite (success_not_403 _ Hcode). run. rewrite (ok_success _ _ Hcode). run.
  rewrite Hguard. run. rewrite Hfalsy, Hblock. run. rewrite Hreason.
  destruct (guard_is_reason _ _ Hblock Hreason) as [feedback [Hf Hr]].
  rewrite Hf. run. rewrite Hr. run. rewrite Hwords. run. apply caught.
Qed.

Lemma accept_empty (code : Z) (result guard blocked : value) :
  200 <= code <= 299 ->
  content_guard result = Normal guard -> truthy guard = false ->
  block_guard result = Normal blocked -> truthy blocked = false ->
  accepted c (mkResponse code (Normal result)) rest st
  = mkOutcome (after_error c NoSuggestions st) [] Completed.
Proof.
  intros Hcode Hguard Hfalsy Hblock Hnone. unfold accepted, accept. run.
  rewrite (success_not_403 _ Hcode). run. rewrite (ok_success _ _ Hcode). run.
  rewrite Hguard. run. rewrite Hfalsy, Hblock. run. rewrite Hnone. run.
  apply caught.
Qed.

End Accept.

End Phases.

(** ** Failures and what they leave in the state *)

Section Failures.
Context {engine : Engine}.



(** C8, as amended.  When the profile fetch succeeds and the repositories
    fetch answers with a non-success status, the attempt ends in the error
    view with the fixed message of [RepositoriesFetchFailed], the same for
    every status; the profile stays unset, the repositories and suggestions
    stay empty, and no generation request is sent. *)
Theorem C8_repositories_fetch_failed
        (c : UIState) (code1 code2 : Z) (profile : value) (address : string)
        (body : completion value) (rest : list fetch_result) :
  username c <> "" ->
  200 <= code1 <= 299 ->
  repositories_address profile = Normal address ->
  code2 < 200 \/ 299 < code2 ->
  analyze c (success code1 profile :: Resolved (mkResponse code2 body) :: rest)
  = mkOutcome
      (mkState (username c) JNull (JArr []) (JArr []) false
               (Some "Failed to fetch GitHub repository data.") (copiedIndex c))
      [GET ("https://api.github.com/users/" ++ username c); GET address]
      Completed
  /\ render (final (analyze c (success code1 profile
                               :: Resolved (mkResponse code2 body) :: rest)))
     = mkView false false false
              (Some (Alarming, "Failed to fetch GitHub repository data.")) None.
Proof.
  intros Hquery H1 Haddress H2.
  assert (Hrun : analyze c (success code1 profile
                            :: Resolved (mkResponse code2 body) :: rest)
                 = mkOutcome
                     (mkState (username c) JNull (JArr []) (JArr []) false
                              (Some "Failed to fetch GitHub repository data.")
                              (copiedIndex c))
                     [GET ("https://api.github.com/users/" ++ username c);
                      GET address]
                     Completed).
  { unfold analyze, handleAnalyze.
    rewrite (truthy_string_nonempty _ Hquery). run.
    rewrite (success_not_404 _ H1). run. rewrite (ok_success _ _ H1). run.
    rewrite Haddress. run. rewrite (ok_failure _ _ H2). run.
    rewrite caught. unfold after_error; cbn.
    destruct (truthy (userData c)); reflexivity. }
  rewrite Hrun. split; reflexivity.
Qed.

(** Both fetches succeed and the prompt is built: the run is the three
    requests followed by the handling of the generation response. *)
Lemma through_generation
      (c : UIState) (code1 code2 : Z) (profile repositories : value)
      (prompt : prompt_data) (address : string) (x : response)
      (rest : list fetch_result) :
  username c <> "" ->
  200 <= code1 <= 299 ->
  200 <= code2 <= 299 ->
  repositories_address profile = Normal address ->
  prompt_of profile repositories = Normal prompt ->
  analyze c (success code1 profile :: success code2 repositories
             :: Resolved x :: rest)
  = let o := accepted c x rest
                           (mkState (username c) profile repositories (JArr [])
                                    true None (copiedIndex c)) in
    mkOutcome (final o)
              (GET ("https://api.github.com/users/" ++ username c)
               :: GET address :: POST apiUrl prompt :: sent o)
              (ended o).
Proof.
  intros Hquery H1 H2 Haddress Hprompt.
  rewrite (github_phase c code1 code2 profile repositories address _
             (truthy_string_nonempty _ Hquery) H1 H2 Haddress).
  cbv zeta.
  rewrite (generation_request c profile repositories prompt x rest _ Hprompt).
  reflexivity.
Qed.

(** A generation call answered 403, after both fetches succeeded: the
    restricted message is stored, and the fetched profile and repositories
    survive exactly when the handler was created by a render that already
    had a profile. *)
Lemma forbidden_after_fetch
      (c : UIState) (code1 code2 : Z) (profile repositories : value)
      (prompt : prompt_data) (address : string) (body : completion value)
      (rest : list fetch_result) :
  username c <> "" ->
  200 <= code1 <= 299 ->
  200 <= code2 <= 299 ->
  repositories_address profile = Normal address ->
  prompt_of profile repositories = Normal prompt ->
  final (analyze c (success code1 profile :: success code2 repositories
                    :: Resolved (mkResponse 403 body) :: rest))
  = mkState (username c)
            (if truthy (userData c) then profile else JNull)
            (if truthy (userData c) then repositories else JArr [])
            (JArr []) false (Some restricted_message) (copiedIndex c).
Proof.
  intros Hquery H1 H2 Haddress Hprompt.
  rewrite (through_generation c code1 code2 profile repositories prompt
             address (mkResponse 403 body) rest Hquery H1 H2 Haddress Hprompt).
  cbv zeta. cbn [final]. rewrite accept_forbidden. reflexivity.
Qed.

(** C1 at the first analysis of a fresh page.  The profile and the
    repositories are fetched and the generation call is answered 403: the
    [catch] block reads the [userData] its handler closed over, which is
    still [null], and resets both cells, so the attempt ends with the error
    alone and no results panel. *)
Theorem C1_first_analysis_discards_fetched_data :
  let o := analyze (Sample.typed "octocat")
                   [success 200 Sample.profile; success 200 Sample.two_repos;
                    failure 403] in
  ended o = Completed
  /\ error (final o) = Some restricted_message
  /\ userData (final o) = JNull
  /\ repos (final o) = JArr []
  /\ results_panel (render (final o)) = None.
Proof. cbv zeta. repeat split. Qed.

(** C2 at a second Enter key press.  With one analysis loading, pressing
    Enter in the query field runs [handleAnalyze] again: a second profile
    request goes out and two analyses are in flight; pressed after the first
    analysis stored its fetched data, it also resets that data. *)
Theorem C2_enter_starts_second_analysis :
  let loading := dispatch (KeyPress "Enter") (dispatch (Change "octocat") fresh) in
  let fetched := settle 0 (success 200 Sample.two_repos)
                        (settle 0 (success 200 Sample.profile) loading) in
  isLoading (ui loading) = true
  /\ map fst (in_flight loading) = [GET "https://api.github.com/users/octocat"]
  /\ map fst (in_flight (dispatch (KeyPress "Enter") loading))
     = [GET "https://api.github.com/users/octocat";
        GET "https://api.github.com/users/octocat"]
  /\ isLoading (ui fetched) = true
  /\ userData (ui fetched) = Sample.profile
  /\ userData (ui (dispatch (KeyPress "Enter") fetched)) = JNull
  /\ length (in_flight (dispatch (KeyPress "Enter") fetched)) = 2%nat.
Proof. cbv zeta. repeat split. Qed.

End Failures.

(** ** The generated content *)

Section Content.
Context {engine : Engine}.



End Content.

(** ** A response without content *)

Section AbsentContent.
Context {engine : Engine}.

(** No candidate, an empty candidate list, or an empty text, and a block
    reason in the feedback: once the prompt is built and the generation call
    answered with a success status, the block reason is reported. *)
Lemma blocked_content_reported
      (c : UIState) (code1 code2 code3 : Z)
      (profile repositories result guard reason : value) (prompt : prompt_data)
      (address words : string) :
  username c <> "" ->
  200 <= code1 <= 299 ->
  200 <= code2 <= 299 ->
  200 <= code3 <= 299 ->
  repositories_address profile = Normal address ->
  prompt_of profile repositories = Normal prompt ->
  content_guard result = Normal guard ->
  truthy guard = false ->
  block_guard result = Normal reason ->
  truthy reason = true ->
  ToString reason = Normal words ->
  error (final (analyze c [success code1 profile; success code2 repositories;
                           success code3 result]))
  = Some ("AI content blocked: " ++ words).
Proof.
  intros Hquery H1 H2 H3 Haddress Hprompt Hguard Hfalsy Hblock Hreason Hwords.
  unfold success at 3.
  rewrite (through_generation c code1 code2 profile repositories prompt
             address (mkResponse code3 (Normal result)) []
             Hquery H1 H2 Haddress Hprompt).
  cbv zeta.
  rewrite (accept_blocked c [] _ code3 result guard reason words
             H3 Hguard Hfalsy Hblock Hreason Hwords).
  reflexivity.
Qed.

(** The same without a block reason: the absence of suggestions is
    reported. *)
Lemma no_suggestions_reported
      (c : UIState) (code1 code2 code3 : Z)
      (profile repositories result guard blocked : value) (prompt : prompt_data)
      (address : string) :
  username c <> "" ->
  200 <= code1 <= 299 ->
  200 <= code2 <= 299 ->
  200 <= code3 <= 299 ->
  repositories_address profile = Normal address ->
  prompt_of profile repositories = Normal prompt ->
  content_guard result = Normal guard ->
  truthy guard = false ->
  block_guard result = Normal blocked ->
  truthy blocked = false ->
  error (final (analyze c [success code1 profile; success code2 repositories;
                           success code3 result]))
  = Some "AI failed to generate valid suggestions.".
Proof.
  intros Hquery H1 H2 H3 Haddress Hprompt Hguard Hfalsy Hblock Hnone.
  unfold success at 3.
  rewrite (through_generation c code1 code2 profile repositories prompt
             address (mkResponse code3 (Normal result)) []
             Hquery H1 H2 Haddress Hprompt).
  cbv zeta.
  rewrite (accept_empty c [] _ code3 result guard blocked
             H3 Hguard Hfalsy Hblock Hnone).
  reflexivity.
Qed.

(** A first candidate that is an object without [content]: the guard itself
    throws, reading [parts] of [undefined]. *)
Lemma guard_throws_without_content
      (result : value) (members : list (string * value)) (more : list value) :
  get result "candidates" = Normal (JArr (JObj members :: more)) ->
  member "content" members = None ->
  content_guard result = Abrupt (cannot_read JUndefined "parts").
Proof.
  intros Hcandidates Hcontent.
  unfold content_guard, first_part_text, js_and. rewrite Hcandidates.
  cbn -[Z.of_nat number_of_Z positive_number]. rewrite Hcontent.
  rewrite length_positive. reflexivity.
Qed.

(** A first candidate that is an object without [content], in a generation
    response with a success status reached with the prompt built: the attempt
    ends with the [TypeError] of reading [parts] of [undefined] as its error,
    whether or not the response names a block reason. *)
Lemma missing_content_surfaces_type_error
      (c : UIState) (code1 code2 code3 : Z)
      (profile repositories result : value) (prompt : prompt_data)
      (address : string)
      (members : list (string * value)) (more : list value) :
  username c <> "" ->
  200 <= code1 <= 299 ->
  200 <= code2 <= 299 ->
  200 <= code3 <= 299 ->
  repositories_address profile = Normal address ->
  prompt_of profile repositories = Normal prompt ->
  get result "candidates" = Normal (JArr (JObj members :: more)) ->
  member "content" members = None ->
  error (final (analyze c [success code1 profile; success code2 repositories;
                           success code3 result]))
  = Some (shown_message (cannot_read JUndefined "parts")).
Proof.
  intros Hquery H1 H2 H3 Haddress Hprompt Hcandidates Hcontent.
  unfold success at 3.
  rewrite (through_generation c code1 code2 profile repositories prompt
             address (mkResponse code3 (Normal result)) []
             Hquery H1 H2 Haddress Hprompt).
  cbv zeta.
  rewrite (accept_guard_throws c [] _ code3 result _ H3
             (guard_throws_without_content result members more
                                           Hcandidates Hcontent)).
  reflexivity.
Qed.

End AbsentContent.

(** ** How an error is drawn *)





(** ** One analysis at a time, by the button *)

Section SingleFlight.
Context {engine : Engine}.

Lemma quiet_bind {A B} (p : prog A) (f : A -> prog B) :
  quiet p -> (forall a, quiet (f a)) -> quiet (bind p f).
Proof.
  induction p as [a | e | c k IH | r k IH]; cbn; intros Hp Hf; auto.
  destruct c; auto; contradiction.
Qed.

Lemma quiet_try_catch {A} (p : prog A) (h : exn -> prog A) :
  quiet p -> (forall e, quiet (h e)) -> quiet (try_catch p h).
Proof.
  induction p as [a | e | c k IH | r k IH]; cbn; intros Hp Hh; auto.
  destruct c; auto; contradiction.
Qed.

Lemma quiet_eval {A} (c : completion A) : quiet (eval c).
Proof. destruct c; exact I. Qed.

Lemma quiet_fetch (r : request) : quiet (fetch r).
Proof. intros [resp | e]; exact I. Qed.

Lemma quiet_throw_if (cond : bool) (e : exn) : quiet (throw_if cond e).
Proof. destruct cond; exact I. Qed.

Create HintDb quiet.
#[local] Hint Resolve quiet_eval quiet_fetch quiet_throw_if : quiet.
#[local] Hint Extern 1 (quiet (bind _ _)) => apply quiet_bind; [| intros] : quiet.
#[local] Hint Extern 1 (quiet (try_catch _ _)) => apply quiet_try_catch; [| intros] : quiet.
#[local] Hint Extern 1 (quiet (if ?b then _ else _)) => destruct b : quiet.
#[local] Hint Extern 0 (quiet _) => exact I : quiet.

Lemma quiet_accept (x : response) : quiet (accept x).
Proof. unfold accept. auto 20 with quiet. Qed.

Lemma quiet_generate (profile repositories : value) : quiet (generate profile repositories).
Proof. unfold generate. pose proof quiet_accept. auto 20 with quiet. Qed.

Lemma quiet_analysis (c : UIState) : quiet (analysis c).
Proof. unfold analysis. pose proof quiet_generate. auto 30 with quiet. Qed.

Lemma quiet_on_error (c : UIState) (err : exn) : quiet (on_error c err).
Proof. unfold on_error. auto 20 with quiet. Qed.

Lemma finally_lowers (p : prog unit) :
  quiet p -> lowers true (finally p (setIsLoading false)).
Proof.
  induction p as [a | e | c k IH | r k IH]; cbn; intros Hp; auto.
  destruct c; auto; contradiction.
Qed.

Lemma handleAnalyze_lowers (c : UIState) : lowers false (handleAnalyze c).
Proof.
  unfold handleAnalyze.
  destruct (truthy_string (username c)); cbn -[finally try_catch analysis on_error];
    [| reflexivity].
  apply finally_lowers, quiet_try_catch;
    [apply quiet_analysis | intros e; apply quiet_on_error].
Qed.

(** A program that lowers the flag, run in a state whose flag it expects. *)
Lemma sync_lowers (p : prog unit) (st : UIState) :
  lowers (isLoading st) p ->
  match sync p st with
  | (st', Waiting _ k) =>
      isLoading st' = true /\ forall settled, lowers true (k settled)
  | (st', _) => isLoading st' = false
  end.
Proof.
  revert st. induction p as [a | e | c k IH | r k IH]; cbn; intros st H; auto.
  apply IH. destruct c; exact H.
Qed.

Lemma start_single_flight (p : prog unit) (c : controller) :
  in_flight c = [] -> lowers (isLoading (ui c)) p -> single_flight (start p c).
Proof.
  intros Hidle Hp. unfold start, single_flight.
  pose proof (sync_lowers p (ui c) Hp) as H.
  destruct (sync p (ui c)) as [st' [| e | r k]]; cbn; rewrite Hidle; cbn; exact H.
Qed.

Lemma button_only_single_flight (c c' : controller) :
  single_flight c -> button_only c c' -> single_flight c'.
Proof.
  intros Hc Hstep. destruct Hstep as [c text | c | c key Hkey | c i x].
  - unfold dispatch, handler, start, single_flight in *. cbn.
    destruct (in_flight c) as [| [r k] [| ? ?]]; cbn in *; auto.
  - unfold single_flight in Hc. unfold dispatch, handler.
    destruct (in_flight c) as [| [r k] [| ? ?]] eqn:Hflight; [| | contradiction].
    + rewrite Hc. apply start_single_flight; [exact Hflight |].
      rewrite Hc. apply handleAnalyze_lowers.
    + destruct Hc as [Hloading Hk]. rewrite Hloading.
      unfold start, single_flight. cbn. rewrite Hflight. auto.
  - unfold dispatch, handler. rewrite (proj2 (String.eqb_neq key "Enter") Hkey).
    unfold start, single_flight in *. cbn.
    destruct (in_flight c) as [| [r k] [| ? ?]]; cbn in *; auto.
  - unfold settle. unfold single_flight in Hc.
    destruct (in_flight c) as [| [r k] [| ? ?]] eqn:Hflight; [| | contradiction].
    + destruct i; cbn; unfold single_flight; rewrite Hflight; exact Hc.
    + destruct Hc as [Hloading Hk].
      destruct i as [| i]; cbn.
      * apply start_single_flight; cbn; [reflexivity |].
        rewrite Hloading. apply Hk.
      * destruct i; cbn; unfold single_flight; rewrite Hflight; auto.
Qed.

(** With the button as the only way to submit, at most one analysis is in
    flight, and one is in flight exactly while the page is loading. *)
Theorem single_flight_by_button (c : controller) :
  button_reachable c ->
  (length (in_flight c) <= 1)%nat
  /\ (isLoading (ui c) = true <-> length (in_flight c) = 1%nat).
Proof.
  intros Hreach.
  assert (H : single_flight c).
  { induction Hreach as [| c c' _ IH Hstep].
    - reflexivity.
    - exact (button_only_single_flight c c' IH Hstep). }
  unfold single_flight in H.
  destruct (in_flight c) as [| [r k] [| ? ?]]; cbn; [| | contradiction].
  - rewrite H. split; [lia | split; discriminate].
  - destruct H as [H _]. rewrite H. split; [lia | split; reflexivity].
Qed.

End SingleFlight.

(** * Runs on the reference engine *)

Module Runs.

Import Sample.

(** *** The empty query *)

(** The empty query submitted on the fresh page. *)
Lemma C3_empty_query_rejected_witness :
  sent (run_analysis initial []) = []
  /\ ended (run_analysis initial []) = Completed
  /\ error (final (run_analysis initial [])) = Some validation_message
  /\ error_panel (render (final (run_analysis initial [])))
     = Some (Alarming, validation_message).
Proof.
  apply (C3_empty_query_rejected (engine := Reference.engine) initial []).
  reflexivity.
Defined.

(** A query made of one blank is passed on to the profile request. *)
Lemma C3_blank_query_is_fetched :
  blank " " = true
  /\ sent (run_analysis (typed " ") []) = [GET "https://api.github.com/users/ "]
  /\ ended (run_analysis (typed " ") []) = InFlight
  /\ error (final (run_analysis (typed " ") [])) = None.
Proof. repeat split. Qed.

(** The empty query submitted on a page that shows results. *)
Lemma C10_empty_query_changes_only_error_witness :
  final (run_analysis results_with_empty_query [])
  = mkState "" profile two_repos one_suggestion false
            (Some validation_message) None
  /\ results_panel (render (final (run_analysis results_with_empty_query [])))
     = results_panel (render results_with_empty_query)
  /\ (in_results results_with_empty_query = true ->
      results_panel (render (final (run_analysis results_with_empty_query [])))
      = Some (mkResults profile one_suggestion two_repos None)
      /\ error_panel (render (final (run_analysis results_with_empty_query [])))
         = Some (Alarming, validation_message)).
Proof.
  apply (C10_empty_query_changes_only_error (engine := Reference.engine)
           results_with_empty_query []).
  reflexivity.
Defined.

(** *** A new cycle *)

(** The button clicked on a page that shows results. *)
Lemma C7_submit_clears_previous_cycle_witness :
  exists k,
    dispatch (engine := Reference.engine) Click (mkController showing_results [])
    = mkController
        (mkState "octocat" JNull (JArr []) (JArr []) true None None)
        [(GET "https://api.github.com/users/octocat", k)]
    /\ render (ui (dispatch (engine := Reference.engine) Click
                            (mkController showing_results [])))
       = mkView true true false None None.
Proof.
  apply (C7_submit_clears_previous_cycle (engine := Reference.engine)
           (mkController showing_results []) Click).
  - left. reflexivity.
  - discriminate.
  - right. reflexivity.
Defined.

(** *** The repositories fetch fails *)

(** The repositories fetch answered 500. *)
Lemma C8_repositories_fetch_failed_witness :
  run_analysis (typed "octocat") [success 200 profile; failure 500]
  = mkOutcome
      (mkState "octocat" JNull (JArr []) (JArr []) false
               (Some "Failed to fetch GitHub repository data.") None)
      [GET "https://api.github.com/users/octocat";
       GET "https://api.github.com/users/octocat/repos?sort=updated&per_page=10"]
      Completed
  /\ render (final (run_analysis (typed "octocat")
                                 [success 200 profile; failure 500]))
     = mkView false false false
              (Some (Alarming, "Failed to fetch GitHub repository data.")) None.
Proof.
  apply (C8_repositories_fetch_failed (engine := Reference.engine)
           (typed "octocat") 200 500 profile repos_address (Normal JNull) []).
  - discriminate.
  - lia.
  - reflexivity.
  - right. lia.
Defined.

(** Two different failure statuses end in the same outcome, so no reading of
    the outcome gives the status back. *)
Lemma C8_status_is_not_carried :
  ~ carries_status
      (fun code => run_analysis (typed "octocat")
                                [success 200 profile; failure code]).
Proof.
  intros [read Hread].
  assert (H500 := Hread 500 ltac:(lia)).
  assert (H503 := Hread 503 ltac:(lia)).
  change (run_analysis (typed "octocat") [success 200 profile; failure 503])
    with (run_analysis (typed "octocat") [success 200 profile; failure 500])
    in H503.
  rewrite H500 in H503. discriminate H503.
Qed.

(** *** The generated content *)



(** *** The stored repositories *)



(** *** A candidate without content *)

(** C6 at a response whose only candidate carries no content.  The response
    names a block reason, yet the guard of the [if] throws while reading
    [parts] of [undefined], and the attempt ends with the engine's
    [TypeError] text as its error instead of the blocked-content message. *)
Theorem C6_candidate_without_content :
  let o := run_analysis (typed "octocat")
                        [success 200 profile; success 200 two_repos;
                         success 200 filtered] in
  first_part_text (engine := Reference.engine) filtered
  = Abrupt (Reference.read_failure JUndefined "parts")
  /\ block_guard (engine := Reference.engine) filtered = Normal (JStr "SAFETY")
  /\ ended o = Completed
  /\ error (final o)
     = Some "Cannot read properties of undefined (reading 'parts')"
  /\ error (final o) <> Some (message (ContentBlocked "SAFETY"))
  /\ error (final o) <> Some (message NoSuggestions).
Proof. cbv zeta. repeat split; discriminate. Qed.

(** *** The error box *)


End Runs.

(** * More of the component *)

(** ** Every path of an analysis *)

(** Walk every path of a handler, splitting on each test it makes. *)
Ltac walk :=
  unfold throw_if, eval, fetch;
  repeat (cbn -[get at_index ToString ok call_map content_guard first_part_text
                block_guard parse_text repositories_address prompt_of js_or
                String.append string_of_Z];
          match goal with
          | |- forall _, _ => intro
          | |- _ /\ _ => split
          | |- True => exact I
          | |- _ = _ => reflexivity
          | |- context [match ?x with _ => _ end] => destruct x
          end).

Section Paths.
Context {engine : Engine}.

Lemma exec_frame {T} (proj : UIState -> T) (bad : call -> bool)
      (p : prog unit) (settled : list fetch_result) (st : UIState) :
  (forall c s, bad c = false -> proj (apply_call c s) = proj s) ->
  never_calls bad p ->
  proj (final (exec p settled st)) = proj st.
Proof.
  intros Hframe. revert settled st.
  induction p as [a | e | c k IH | r k IH]; cbn; intros settled st Hp;
    try reflexivity.
  - destruct Hp as [Hc Hk]. rewrite (IH settled _ Hk). apply Hframe, Hc.
  - destruct settled as [| x rest]; cbn; [reflexivity |]. apply IH, Hp.
Qed.

Lemma exec_contained (p : prog unit) (settled : list fetch_result) (st : UIState) :
  contained p ->
  match ended (exec p settled st) with Crashed _ => False | _ => True end.
Proof.
  revert settled st.
  induction p as [a | e | c k IH | r k IH]; cbn; intros settled st Hp.
  - exact I.
  - exact Hp.
  - apply IH, Hp.
  - destruct settled as [| x rest]; cbn; [exact I |]. apply IH, Hp.
Qed.

Lemma exec_awaits (n : nat) (p : prog unit) (settled : list fetch_result)
      (st : UIState) :
  awaits_at_most n p -> (List.length (sent (exec p settled st)) <= n)%nat.
Proof.
  revert n settled st.
  induction p as [a | e | c k IH | r k IH]; cbn; intros n settled st Hp;
    try lia.
  - apply IH, Hp.
  - destruct n as [| m]; [contradiction |].
    destruct settled as [| x rest]; cbn; [lia |].
    specialize (IH x m rest st (Hp x)). lia.
Qed.

Lemma exec_lowers (p : prog unit) (settled : list fetch_result) (st : UIState) :
  lowers (isLoading st) p ->
  isLoading (final (exec p settled st))
  = match ended (exec p settled st) with InFlight => true | _ => false end.
Proof.
  revert settled st.
  induction p as [a | e | c k IH | r k IH]; cbn; intros settled st Hp.
  - exact Hp.
  - exact Hp.
  - apply IH. destruct c; exact Hp.
  - destruct Hp as [Hup Hk].
    destruct settled as [| x rest]; cbn; [exact Hup |].
    apply IH. rewrite Hup. apply Hk.
Qed.

Lemma handleAnalyze_contained (c : UIState) : contained (handleAnalyze c).
Proof. unfold handleAnalyze, analysis, generate, accept, on_error. walk. Qed.

Lemma handleAnalyze_awaits (c : UIState) : awaits_at_most 3 (handleAnalyze c).
Proof. unfold handleAnalyze, analysis, generate, accept, on_error. walk. Qed.

Lemma handleAnalyze_keeps_query_and_copied (c : UIState) :
  never_calls sets_query_or_copied (handleAnalyze c).
Proof. unfold handleAnalyze, analysis, generate, accept, on_error. walk. Qed.

Lemma handleAnalyze_lowers_from (c : UIState) (b : bool) :
  truthy_string (username c) = true -> lowers b (handleAnalyze c).
Proof.
  intros Hquery. unfold handleAnalyze. rewrite Hquery.
  cbn -[finally try_catch analysis on_error].
  apply finally_lowers, quiet_try_catch;
    [apply quiet_analysis | intros e; apply quiet_on_error].
Qed.

(** However the requests settle, no exception escapes [handleAnalyze]; a
    completed analysis of a non-empty query leaves the loading flag down
    (the button enabled again), and one still waiting has it up. *)
Theorem analysis_contains_errors_and_settles_loading
        (c : UIState) (settled : list fetch_result) :
  match ended (analyze c settled) with
  | Crashed _ => False
  | InFlight => isLoading (final (analyze c settled)) = true
  | Completed =>
      isLoading (final (analyze c settled))
      = if truthy_string (username c) then false else isLoading c
  end.
Proof.
  unfold analyze.
  pose proof (exec_contained (handleAnalyze c) settled c
                (handleAnalyze_contained c)) as Hsafe.
  destruct (truthy_string (username c)) eqn:Hquery.
  - pose proof (exec_lowers (handleAnalyze c) settled c
                  (handleAnalyze_lowers_from c (isLoading c) Hquery)) as Hflag.
    destruct (ended (exec (handleAnalyze c) settled c)); auto.
  - unfold handleAnalyze. rewrite Hquery. reflexivity.
Qed.

(** An analysis sends at most three requests, so none is ever repeated, and
    the first one is the profile request for the query as typed. *)
Theorem analysis_sends_at_most_three_requests
        (c : UIState) (settled : list fetch_result) :
  (List.length (sent (analyze c settled)) <= 3)%nat
  /\ hd_error (sent (analyze c settled))
     = if truthy_string (username c) then Some (GET (profile_address c))
       else None.
Proof.
  split.
  - apply exec_awaits, handleAnalyze_awaits.
  - unfold analyze, handleAnalyze, profile_address.
    destruct (truthy_string (username c)); [| reflexivity].
    cbn -[String.append finally try_catch on_error].
    unfold analysis, fetch. cbn -[String.append].
    destruct settled; reflexivity.
Qed.

(** An analysis never changes the query text nor the copied index. *)
Theorem analysis_keeps_query_and_copied_index
        (c : UIState) (settled : list fetch_result) :
  username (final (analyze c settled)) = username c
  /\ copiedIndex (final (analyze c settled)) = copiedIndex c.
Proof.
  unfold analyze. split.
  - apply (exec_frame username sets_query_or_copied);
      [| apply handleAnalyze_keeps_query_and_copied].
    intros call st H; destruct call; try reflexivity; discriminate H.
  - apply (exec_frame copiedIndex sets_query_or_copied);
      [| apply handleAnalyze_keeps_query_and_copied].
    intros call st H; destruct call; try reflexivity; discriminate H.
Qed.

(** Two handlers that agree on every error give the same run. *)
Lemma exec_handler_ext (p : prog unit) (h h' : exn -> prog unit)
      (cleanup : prog unit) (settled : list fetch_result) (st : UIState) :
  (forall e, h e = h' e) ->
  exec (finally (try_catch p h) cleanup) settled st
  = exec (finally (try_catch p h') cleanup) settled st.
Proof.
  intros Hext. revert settled st.
  induction p as [a | e | c k IH | r k IH]; cbn; intros settled st.
  - reflexivity.
  - rewrite Hext. reflexivity.
  - apply IH.
  - destruct settled as [| x rest]; [reflexivity |]. rewrite IH. reflexivity.
Qed.

(** The outcome of an analysis of a non-empty query depends on the page it
    was submitted from only through the query, the copied index and whether
    a profile was showing: nothing else of the previous cycle reaches the
    new one. *)
Theorem analysis_independent_of_previous_cycle
        (c c' : UIState) (settled : list fetch_result) :
  username c <> "" ->
  username c' = username c ->
  copiedIndex c' = copiedIndex c ->
  truthy (userData c') = truthy (userData c) ->
  analyze c' settled = analyze c settled.
Proof.
  intros Hquery Hname Hcopied Hshowing.
  unfold analyze, handleAnalyze. rewrite Hname.
  rewrite (truthy_string_nonempty _ Hquery).
  cbn -[finally try_catch analysis on_error]. rewrite Hname, Hcopied.
  replace (analysis c') with (analysis c)
    by (unfold analysis; rewrite Hname; reflexivity).
  apply exec_handler_ext. intros e. unfold on_error. rewrite Hshowing.
  reflexivity.
Qed.

End Paths.

(** ** Failures, stage by stage *)

Lemma Z_of_string_of_Z (n : Z) : Z_of_string (string_of_Z n) = Some n.
Proof.
  unfold Z_of_string, string_of_Z.
  destruct (Z.to_int n) as [u | u] eqn:Hint.
  - destruct u; try (rewrite NilZero.isi by discriminate; cbn [option_map];
                     rewrite <- Hint, DecimalZ.of_to; reflexivity).
    rewrite NilZero.isi_posnil. cbn [option_map].
    rewrite <- (DecimalZ.of_to n), Hint. reflexivity.
  - destruct u; try (rewrite NilZero.isi by discriminate; cbn [option_map];
                     rewrite <- Hint, DecimalZ.of_to; reflexivity).
    rewrite NilZero.isi_negnil. cbn [option_map].
    rewrite <- (DecimalZ.of_to n), Hint. reflexivity.
Qed.

Section Stages.
Context {engine : Engine}.

(** The state a failure before the fetched data is stored leaves. *)
Lemma after_error_loading (c : UIState) (err : exn) :
  after_error c err (loading_state c)
  = mkState (username c) JNull (JArr []) (JArr []) false
            (Some (shown_message err)) (copiedIndex c).
Proof. unfold after_error, loading_state. cbn. destruct (truthy (userData c)); reflexivity. Qed.

Lemma profile_not_found_run
      (c : UIState) (body : completion value) (rest : list fetch_result) :
  username c <> "" ->
  analyze c (Resolved (mkResponse 404 body) :: rest)
  = mkOutcome
      (mkState (username c) JNull (JArr []) (JArr []) false
               (Some "GitHub user not found.") (copiedIndex c))
      [GET (profile_address c)] Completed.
Proof.
  intros Hquery.
  unfold analyze, handleAnalyze, profile_address.
  rewrite (truthy_string_nonempty _ Hquery). run.
  rewrite caught.
  change (mkState (username c) JNull (JArr []) (JArr []) true None (copiedIndex c))
    with (loading_state c).
  rewrite after_error_loading. reflexivity.
Qed.

(** A profile request answered 404: the attempt ends with the message that
    the user was not found, drawn in the alarming box; nothing else is
    requested and no profile, repository or suggestion is stored. *)
Theorem profile_not_found
        (c : UIState) (body : completion value) (rest : list fetch_result) :
  username c <> "" ->
  analyze c (Resolved (mkResponse 404 body) :: rest)
  = mkOutcome
      (mkState (username c) JNull (JArr []) (JArr []) false
               (Some "GitHub user not found.") (copiedIndex c))
      [GET (profile_address c)] Completed
  /\ render (final (analyze c (Resolved (mkResponse 404 body) :: rest)))
     = mkView false false false (Some (Alarming, "GitHub user not found.")) None.
Proof.
  intros Hquery. rewrite (profile_not_found_run c body rest Hquery).
  split; reflexivity.
Qed.

(** A profile request answered with another non-success status: the attempt
    ends with a message that names the status. *)
Lemma profile_fetch_failed
      (c : UIState) (code : Z) (body : completion value) (rest : list fetch_result) :
  username c <> "" ->
  code < 200 \/ 299 < code ->
  code <> 404 ->
  analyze c (Resolved (mkResponse code body) :: rest)
  = mkOutcome
      (mkState (username c) JNull (JArr []) (JArr []) false
               (Some ("Failed to fetch GitHub user data. Status: "
                      ++ string_of_Z code))
               (copiedIndex c))
      [GET (profile_address c)] Completed.
Proof.
  intros Hquery Hcode H404.
  unfold analyze, handleAnalyze, profile_address.
  rewrite (truthy_string_nonempty _ Hquery). run.
  rewrite (proj2 (Z.eqb_neq code 404) H404). run.
  rewrite (ok_failure _ _ Hcode). run.
  rewrite caught.
  change (mkState (username c) JNull (JArr []) (JArr []) true None (copiedIndex c))
    with (loading_state c).
  rewrite after_error_loading. reflexivity.
Qed.

(** Whatever non-success status the profile request is answered with, the
    status can be read back from the error the attempt ends with. *)
Theorem profile_failure_names_status
        (c : UIState) (body : completion value) (rest : list fetch_result) :
  username c <> "" ->
  carries_status
    (fun code => analyze c (Resolved (mkResponse code body) :: rest)).
Proof.
  intros Hquery. exists status_in_profile_error. intros code Hcode.
  destruct (Z.eq_dec code 404) as [-> | H404].
  - rewrite (profile_not_found_run c body rest Hquery). reflexivity.
  - rewrite (profile_fetch_failed c code body rest Hquery Hcode H404).
    unfold status_in_profile_error. cbn -[string_of_Z Z_of_string].
    rewrite Z_of_string_of_Z. reflexivity.
Qed.

(** Step 2 from the state [st] on, however the prompt is built and the
    generation request settles: the run is still waiting, or it stored what
    the content parsed into, or it went through the [catch] block. *)
Lemma generation_outcome
      (c : UIState) (profile repositories : value)
      (rest : list fetch_result) (st : UIState) :
  let o := exec (finally (try_catch (generate profile repositories) (on_error c))
                         (setIsLoading false)) rest st in
  (ended o = InFlight /\ final o = st)
  \/ (ended o = Completed
      /\ exists parsed,
          final o = mkState (username st) (userData st) (repos st) parsed false
                            (error st) (copiedIndex st))
  \/ (ended o = Completed /\ exists e, final o = after_error c e st).
Proof.
  assert (Hcaught : forall e settled,
             let o := exec (finally (on_error c e) (setIsLoading false)) settled st in
             (ended o = InFlight /\ final o = st)
             \/ (ended o = Completed
                 /\ exists parsed,
                     final o = mkState (username st) (userData st) (repos st)
                                       parsed false (error st) (copiedIndex st))
             \/ (ended o = Completed /\ exists e', final o = after_error c e' st)).
  { intros e settled. cbv zeta. rewrite caught. right. right.
    split; [reflexivity | exists e; reflexivity]. }
  cbv zeta in *. unfold generate, accept.
  unfold throw_if, eval, fetch.
  repeat (cbn -[get at_index ToString ok call_map content_guard first_part_text
                block_guard parse_text repositories_address prompt_of js_or
                on_error String.append string_of_Z after_error];
          match goal with
          | |- context [exec (finally (on_error _ _) _) _ _] => apply Hcaught
          | |- context [match ?x with _ => _ end] => destruct x
          end).
  - left. split; reflexivity.
  - right. left. split; [reflexivity | eexists; reflexivity].
Qed.

(** A fetch that rejects ends the attempt at once with the rejection's
    message (the fallback text when it has none): at the profile request and
    at the repositories request nothing is stored; at the generation request,
    which is sent once the prompt is built, the fetched data is handled as
    by any other generation failure. *)
Theorem rejected_fetch_is_reported
        (c : UIState) (e : exn) (code1 code2 : Z)
        (profile repositories : value) (prompt : prompt_data) (address : string)
        (rest : list fetch_result) :
  username c <> "" ->
  200 <= code1 <= 299 ->
  200 <= code2 <= 299 ->
  repositories_address profile = Normal address ->
  prompt_of profile repositories = Normal prompt ->
  analyze c (Rejected e :: rest)
  = mkOutcome (after_error c e (loading_state c)) [GET (profile_address c)]
              Completed
  /\ analyze c (success code1 profile :: Rejected e :: rest)
     = mkOutcome (after_error c e (loading_state c))
                 [GET (profile_address c); GET address] Completed
  /\ analyze c (success code1 profile :: success code2 repositories
                :: Rejected e :: rest)
     = mkOutcome (after_error c e (fetched_state c profile repositories))
                 [GET (profile_address c); GET address; POST apiUrl prompt]
                 Completed
  /\ (forall st,
        error (after_error c e st)
        = Some (if String.eqb (message e) "API_KEY_RESTRICTED"
                then restricted_message
                else if truthy_string (message e) then message e
                     else fallback_message)).
Proof.
  intros Hquery H1 H2 Haddress Hprompt.
  pose proof (truthy_string_nonempty _ Hquery) as Htruthy.
  split; [| split; [| split]].
  - unfold analyze, handleAnalyze, profile_address. rewrite Htruthy. run.
    rewrite caught. reflexivity.
  - unfold analyze, handleAnalyze, profile_address. rewrite Htruthy. run.
    rewrite (success_not_404 _ H1). run. rewrite (ok_success _ _ H1). run.
    rewrite Haddress. run. rewrite caught. reflexivity.
  - rewrite (github_phase c code1 code2 profile repositories address _
               Htruthy H1 H2 Haddress).
    cbv zeta. unfold generate. rewrite Hprompt. run. rewrite caught.
    reflexivity.
  - intros st. reflexivity.
Qed.

(** Whatever non-success status the generation request is answered with,
    once the prompt is built and the request sent, the status can be read
    back from the error the attempt ends with. *)
Theorem generation_failure_names_status
        (c : UIState) (code1 code2 : Z) (profile repositories : value)
        (prompt : prompt_data) (address : string) (body : completion value)
        (rest : list fetch_result) :
  username c <> "" ->
  200 <= code1 <= 299 ->
  200 <= code2 <= 299 ->
  repositories_address profile = Normal address ->
  prompt_of profile repositories = Normal prompt ->
  carries_status
    (fun code => analyze c (success code1 profile :: success code2 repositories
                            :: Resolved (mkResponse code body) :: rest)).
Proof.
  intros Hquery H1 H2 Haddress Hprompt.
  exists status_in_generation_error. intros code Hcode.
  rewrite (through_generation c code1 code2 profile repositories prompt
             address (mkResponse code body) rest Hquery H1 H2 Haddress Hprompt).
  cbv zeta. unfold status_in_generation_error. cbn [final].
  destruct (Z.eq_dec code 403) as [-> | H403].
  - rewrite accept_forbidden. reflexivity.
  - rewrite (accept_failed c rest _ code body Hcode H403).
    cbn -[string_of_Z Z_of_string].
    rewrite Z_of_string_of_Z. reflexivity.
Qed.

(** Submitted from a page that already shows a profile, an analysis whose
    two fetches succeed keeps the newly fetched profile and repositories
    whatever happens afterwards. *)
Theorem showing_page_keeps_fetched_data
        (c : UIState) (code1 code2 : Z) (profile repositories : value)
        (address : string) (rest : list fetch_result) :
  username c <> "" ->
  200 <= code1 <= 299 ->
  200 <= code2 <= 299 ->
  repositories_address profile = Normal address ->
  truthy (userData c) = true ->
  userData (final (analyze c (success code1 profile :: success code2 repositories
                              :: rest))) = profile
  /\ repos (final (analyze c (success code1 profile :: success code2 repositories
                              :: rest))) = repositories.
Proof.
  intros Hquery H1 H2 Haddress Hshowing.
  rewrite (github_phase c code1 code2 profile repositories address _
             (truthy_string_nonempty _ Hquery) H1 H2 Haddress).
  cbv zeta. cbn [final].
  destruct (generation_outcome c profile repositories rest
              (mkState (username c) profile repositories (JArr []) true None
                       (copiedIndex c)))
    as [[_ ->] | [[_ [parsed ->]] | [_ [e ->]]]]; cbn; try (split; reflexivity).
  rewrite Hshowing. split; reflexivity.
Qed.

(** Submitted from a page that shows no profile, the same analysis keeps the
    fetched profile and repositories only if it succeeds to the end: any
    error after the fetches leaves the page without them. *)
Theorem page_without_profile_keeps_data_only_on_success
        (c : UIState) (code1 code2 : Z) (profile repositories : value)
        (address : string) (rest : list fetch_result) :
  username c <> "" ->
  200 <= code1 <= 299 ->
  200 <= code2 <= 299 ->
  repositories_address profile = Normal address ->
  truthy (userData c) = false ->
  let o := analyze c (success code1 profile :: success code2 repositories :: rest) in
  match ended o with
  | Crashed _ => False
  | InFlight =>
      userData (final o) = profile /\ repos (final o) = repositories
  | Completed =>
      match error (final o) with
      | None => userData (final o) = profile /\ repos (final o) = repositories
      | Some _ => userData (final o) = JNull /\ repos (final o) = JArr []
      end
  end.
Proof.
  intros Hquery H1 H2 Haddress Hshowing.
  rewrite (github_phase c code1 code2 profile repositories address _
             (truthy_string_nonempty _ Hquery) H1 H2 Haddress).
  cbv zeta. cbn [final ended].
  destruct (generation_outcome c profile repositories rest
              (mkState (username c) profile repositories (JArr []) true None
                       (copiedIndex c)))
    as [[-> ->] | [[-> [parsed ->]] | [-> [e ->]]]]; cbn.
  - split; reflexivity.
  - split; reflexivity.
  - rewrite Hshowing. split; reflexivity.
Qed.

End Stages.

(** ** The box of a failed attempt *)

Section ErrorBox.
Context {engine : Engine}.







End ErrorBox.

(** ** The copy handler and its timer *)

Section CopyProperties.
Context {engine : Engine}.

Lemma attached_app (log log' : list dom_event) :
  attached (log ++ log') = attached log + attached log'.
Proof.
  induction log as [| ev log IH]; cbn; [lia |].
  destruct ev; rewrite IH; lia.
Qed.

(** A copy whose command returns, done or not, marks the suggestion as
    copied; with no older timer around, the mark stays for the whole two
    seconds and is gone once they have passed, together with the timer. *)
Theorem copy_marks_for_two_seconds
        (done : bool) (text : value) (stored : string) (index : nat) (p : page) :
  textarea_value text = Normal stored ->
  timers p = [] ->
  exists p',
    handleCopyToClipboard (Returned done) text index p = Normal p'
    /\ copiedIndex (cells p') = Some index
    /\ (forall ms, 0 <= ms < 2000 ->
                   copiedIndex (cells (wait ms p')) = Some index)
    /\ (forall ms, 2000 <= ms ->
                   copiedIndex (cells (wait ms p')) = None
                   /\ timers (wait ms p') = []).
Proof.
  intros Hstored Hnone. unfold handleCopyToClipboard. rewrite Hstored. cbn.
  eexists. split; [reflexivity |]. rewrite Hnone. cbn.
  split; [reflexivity |]. split.
  - intros ms Hms. unfold wait, run_timers, is_due. cbn.
    replace (clock p + 2000 <=? clock p + ms) with false
      by (symmetry; apply Z.leb_gt; lia).
    reflexivity.
  - intros ms Hms. unfold wait, run_timers, is_due. cbn.
    replace (clock p + 2000 <=? clock p + ms) with true
      by (symmetry; apply Z.leb_le; lia).
    split; reflexivity.
Qed.

(** The timer of an earlier copy clears the mark of a later one: copy one
    suggestion, copy another less than two seconds later, and the second
    mark disappears two seconds after the first copy, while the second
    copy's own timer is still to run. *)
Theorem earlier_timer_clears_later_mark
        (done done' : bool) (text text' : value) (stored stored' : string)
        (i j : nat) (gap ms : Z) (p : page) :
  textarea_value text = Normal stored ->
  textarea_value text' = Normal stored' ->
  timers p = [] ->
  0 <= gap < 2000 ->
  0 <= ms < 2000 ->
  2000 <= gap + ms ->
  exists p1 p2,
    handleCopyToClipboard (Returned done) text i p = Normal p1
    /\ handleCopyToClipboard (Returned done') text' j (wait gap p1) = Normal p2
    /\ copiedIndex (cells p2) = Some j
    /\ copiedIndex (cells (wait ms p2)) = None
    /\ map due (timers (wait ms p2)) = [clock p + gap + 2000].
Proof.
  intros Hstored Hstored' Hnone Hgap Hms Hsum.
  unfold handleCopyToClipboard. rewrite Hstored. cbn.
  eexists. eexists. split; [reflexivity |].
  rewrite Hstored'. cbn. split; [reflexivity |].
  rewrite Hnone. unfold wait, run_timers, is_due. cbn.
  replace (clock p + 2000 <=? clock p + gap) with false
    by (symmetry; apply Z.leb_gt; lia).
  cbn.
  replace (clock p + 2000 <=? clock p + gap + ms) with true
    by (symmetry; apply Z.leb_le; lia).
  replace (clock p + gap + 2000 <=? clock p + gap + ms) with false
    by (symmetry; apply Z.leb_gt; lia).
  cbn. repeat split.
Qed.

(** A copy command that throws is reported on the console and changes
    nothing else: no cell, no timer.  Whether the command returns or throws,
    the helper textarea is removed again. *)
Theorem copy_command_outcomes
        (result : command_result) (text : value) (stored : string) (index : nat)
        (p : page) :
  textarea_value text = Normal stored ->
  exists p',
    handleCopyToClipboard result text index p = Normal p'
    /\ attached (document_log p') = attached (document_log p)
    /\ clock p' = clock p
    /\ match result with
       | Raised err =>
           cells p' = cells p
           /\ timers p' = timers p
           /\ document_log p'
              = (document_log p
                 ++ [Appended stored; Selected; Commanded; Reported err; Removed])%list
       | Returned _ =>
           same_but_copied (cells p) (cells p')
           /\ document_log p'
              = (document_log p
                 ++ [Appended stored; Selected; Commanded; Removed])%list
       end.
Proof.
  intros Hstored. unfold handleCopyToClipboard. rewrite Hstored. cbn.
  destruct result as [done | err]; eexists; (split; [reflexivity |]); cbn;
    rewrite !attached_app; cbn; (split; [lia |]); (split; [reflexivity |]).
  - split; [unfold same_but_copied; cbn; repeat split |].
    rewrite <- app_assoc. reflexivity.
  - split; [reflexivity |]. split; [reflexivity |].
    rewrite <- app_assoc. reflexivity.
Qed.

Lemma run_copy_timers (due_now : list timer) (st : UIState) :
  Forall (fun tm => callback tm = setCopiedIndex None) due_now ->
  same_but_copied st
    (fold_left (fun st tm => fst (sync (callback tm) st)) due_now st).
Proof.
  revert st. induction due_now as [| tm rest IH]; intros st Hall; cbn.
  - unfold same_but_copied. repeat split.
  - inversion Hall as [| ? ? Htm Hrest]; subst.
    rewrite Htm. cbn.
    specialize (IH (apply_call (SetCopiedIndex None) st) Hrest).
    unfold same_but_copied in *. cbn in IH. exact IH.
Qed.

Lemma Forall_filter {A} (P : A -> Prop) (keep : A -> bool) (l : list A) :
  Forall P l -> Forall P (filter keep l).
Proof.
  induction 1 as [| a l Ha Hl IH]; cbn; [constructor |].
  destruct (keep a); [constructor |]; assumption.
Qed.

(** Copying and the passing of time touch the copied index only: the query,
    the profile, the repositories, the suggestions, the loading flag and the
    error are left as they were, and every timer still is one of the copy
    handler's. *)
Theorem copy_and_time_touch_only_the_mark (p : page) :
  copy_timers p ->
  (forall ms, copy_timers (wait ms p)
              /\ same_but_copied (cells p) (cells (wait ms p)))
  /\ (forall result text index p',
         handleCopyToClipboard result text index p = Normal p' ->
         copy_timers p' /\ same_but_copied (cells p) (cells p')).
Proof.
  intros Hp. split.
  - intros ms. unfold wait, run_timers, copy_timers. cbn. split.
    + apply Forall_filter, Hp.
    + apply run_copy_timers, Forall_filter, Hp.
  - intros result text index p'. unfold handleCopyToClipboard.
    destruct (textarea_value text) as [stored | e]; cbn; [| discriminate].
    destruct result as [done | err]; intros [= <-]; unfold copy_timers; cbn.
    + split; [| unfold same_but_copied; cbn; repeat split].
      apply Forall_app. split; [exact Hp |]. constructor; [reflexivity | constructor].
    + split; [exact Hp | unfold same_but_copied; repeat split].
Qed.

End CopyProperties.

(** ** Inside the results panel *)

Section MarkupProperties.
Context {engine : Engine}.

Lemma get_readable (v : value) (p : string) :
  nullish v = false -> exists x, get v p = Normal x.
Proof. destruct v; cbn; intros H; try discriminate H; eexists; reflexivity. Qed.

Lemma get_nullish (v : value) (p : string) :
  nullish v = true -> get v p = Abrupt (cannot_read v p).
Proof. destruct v; cbn; intros H; try discriminate H; reflexivity. Qed.

(** A named property among plain fields reads as a primitive. *)
Lemma plain_field (names : list string) (v : value) (p : string) :
  plain_fields names v = true -> In p names ->
  exists x, get v p = Normal x /\ primitive x = true.
Proof.
  unfold plain_fields. rewrite forallb_forall. intros Hall Hin.
  specialize (Hall p Hin).
  destruct (get v p) as [x | e]; [| discriminate Hall].
  exists x. split; [reflexivity | exact Hall].
Qed.

(** React accepts a primitive as a child and as an attribute, and the
    creation of an element as a key. *)
Lemma primitive_child (x : value) : primitive x = true -> child x = Normal tt.
Proof. destruct x; cbn; intros H; try discriminate H; reflexivity. Qed.

Lemma primitive_attribute (x : value) :
  primitive x = true -> attribute x = Normal tt.
Proof. destruct x; cbn; intros H; try discriminate H; reflexivity. Qed.

Lemma primitive_key (x : value) :
  primitive x = true -> exists key, key_of x = Normal key.
Proof.
  destruct x as [| | [|] | | | |]; cbn; intros H; try discriminate H;
    eexists; reflexivity.
Qed.

(** [v.p || 'text'] for a plain field is a primitive, whichever side it
    takes. *)
Lemma js_or_plain (v x : value) (p text : string) :
  get v p = Normal x -> primitive x = true ->
  exists y, js_or (get v p) (Normal (JStr text)) = Normal y
            /\ primitive y = true.
Proof.
  intros Hx Hprim. unfold js_or. rewrite Hx. cbn.
  destruct (truthy x); eexists; split; try reflexivity; exact Hprim.
Qed.

(** Mapping over items that each give a card gives one card per item, in
    order. *)
Lemma map_indexed_readable {A} (f : nat -> value -> completion A)
      (Q : value -> Prop) (R : nat -> value -> A -> Prop) (P : A -> Prop)
      (items : list value) (index : nat) :
  (forall i v, Q v -> exists y, f i v = Normal y /\ R i v y /\ P y) ->
  Forall Q items ->
  exists cards,
    map_indexed f index items = Normal cards
    /\ List.length cards = List.length items
    /\ Forall P cards
    /\ (forall i v, nth_error items i = Some v ->
                    exists y, nth_error cards i = Some y /\ R (index + i)%nat v y).
Proof.
  intros Hf. revert index.
  induction items as [| item rest IH]; intros index Hall; cbn.
  - exists []. split; [reflexivity |]. split; [reflexivity |].
    split; [constructor |].
    intros [| i] v H; discriminate H.
  - inversion Hall as [| ? ? Hitem Hrest]; subst.
    destruct (Hf index item Hitem) as [y [Hy [Ry Py]]].
    destruct (IH (S index) Hrest) as [ys [Hys [Hlen [Hall' Hnth]]]].
    rewrite Hy. cbn. rewrite Hys. cbn.
    exists (y :: ys). split; [reflexivity |]. split; [cbn; lia |].
    split; [constructor; assumption |].
    intros [| i] v H; cbn in H.
    + injection H as <-. exists y. split; [reflexivity |].
      rewrite Nat.add_0_r. exact Ry.
    + destruct (Hnth i v H) as [y' [Hy' Ry']].
      exists y'. split; [exact Hy' |].
      replace (index + S i)%nat with (S index + i)%nat by lia. exact Ry'.
Qed.

(** A list of such items is drawn in full. *)
Lemma listing_readable {A} (expr : string) (f : nat -> value -> completion A)
      (Q : value -> Prop) (R : nat -> value -> A -> Prop) (P : A -> Prop)
      (items : list value) :
  (forall i v, Q v -> exists y, f i v = Normal y /\ R i v y /\ P y) ->
  Forall Q items ->
  exists section,
    listing expr (JArr items) f = Normal section
    /\ List.length (cards_of section) = List.length items
    /\ Forall P (cards_of section)
    /\ (forall i v, nth_error items i = Some v ->
                    exists y, nth_error (cards_of section) i = Some y /\ R i v y).
Proof.
  intros Hf Hall. unfold listing.
  cbn -[Z.of_nat number_of_Z positive_number].
  destruct items as [| item rest].
  - cbn. exists None. split; [reflexivity |]. split; [reflexivity |].
    split; [constructor |].
    intros [| i] v H; discriminate H.
  - cbn [List.length]. rewrite length_positive.
    destruct (map_indexed_readable f Q R P (item :: rest) O Hf Hall)
      as [cards [Hcards [Hlen [Hall' Hnth]]]].
    rewrite Hcards. cbn. exists (Some cards). split; [reflexivity |].
    split; [exact Hlen |]. split; [exact Hall' | exact Hnth].
Qed.

Lemma each_accepted {A} (f : A -> completion unit) (l : list A) :
  Forall (fun a => f a = Normal tt) l -> each f l = Normal tt.
Proof.
  induction 1 as [| a rest Ha _ IH]; cbn; [reflexivity |].
  rewrite Ha. cbn. exact IH.
Qed.

Lemma profile_card_plain (profile : value) :
  plain_fields ["avatar_url"; "login"; "name"; "bio"] profile = true ->
  exists pc, profile_card_of profile = Normal pc /\ mount_profile pc = Normal tt.
Proof.
  intros Hplain. unfold profile_card_of.
  destruct (plain_field _ _ "avatar_url" Hplain) as [a [Ha Pa]]; [cbn; auto |].
  destruct (plain_field _ _ "login" Hplain) as [l [Hl Pl]]; [cbn; auto |].
  destruct (plain_field _ _ "name" Hplain) as [n [Hn Pn]]; [cbn; auto |].
  destruct (plain_field _ _ "bio" Hplain) as [b [Hb Pb]]; [cbn; auto |].
  destruct (js_or_plain profile b "bio" "No bio provided." Hb Pb)
    as [shown [Hshown Pshown]].
  rewrite Ha, Hl, Hshown. unfold js_or. rewrite Hn.
  cbn [bind_completion].
  assert (Pname : primitive (if truthy n then n else l) = true)
    by (destruct (truthy n); assumption).
  destruct (truthy n); cbn [bind_completion]; eexists; (split; [reflexivity |]);
    unfold mount_profile; cbn [avatar_src avatar_alt display_name login_line bio_line];
    rewrite (primitive_attribute a Pa), (primitive_attribute l Pl),
            (primitive_child l Pl), (primitive_child shown Pshown);
    cbn [bind_completion]; rewrite ?(primitive_child n Pn); reflexivity.
Qed.

Lemma suggestion_cards_plain (copied : option nat) (ideas : list value) :
  Forall (fun s => plain_fields ["title"; "markdown"] s = true) ideas ->
  exists section,
    listing "suggestions" (JArr ideas) (suggestion_card_of copied) = Normal section
    /\ List.length (cards_of section) = List.length ideas
    /\ Forall (fun shown => mount_suggestion shown = Normal tt) (cards_of section)
    /\ (forall i s, nth_error ideas i = Some s ->
          exists shown,
            nth_error (cards_of section) i = Some shown
            /\ get s "title" = Normal (suggestion_title shown)
            /\ get s "markdown" = Normal (snippet shown)).
Proof.
  intros Hall.
  apply (listing_readable "suggestions" (suggestion_card_of copied)
           (fun s => plain_fields ["title"; "markdown"] s = true)
           (fun _ s shown => get s "title" = Normal (suggestion_title shown)
                             /\ get s "markdown" = Normal (snippet shown))
           (fun shown => mount_suggestion shown = Normal tt));
    [| exact Hall].
  intros i v Hv. unfold suggestion_card_of.
  destruct (plain_field _ _ "title" Hv) as [t [Ht Pt]]; [cbn; auto |].
  destruct (plain_field _ _ "markdown" Hv) as [md [Hmd Pmd]]; [cbn; auto |].
  rewrite Ht, Hmd. cbn. eexists. split; [reflexivity |]. cbn.
  split; [split; reflexivity |].
  unfold mount_suggestion. cbn [suggestion_title snippet].
  rewrite (primitive_child t Pt), (primitive_child md Pmd). reflexivity.
Qed.

Lemma repo_cards_plain (repositories : list value) :
  Forall (fun repo =>
            plain_fields ["id"; "html_url"; "name"; "description"; "language";
                          "stargazers_count"; "forks_count"] repo = true)
         repositories ->
  exists grid,
    listing "repos" (JArr repositories) repo_card_of = Normal grid
    /\ List.length (cards_of grid) = List.length repositories
    /\ Forall (fun shown => mount_repo shown = Normal tt) (cards_of grid)
    /\ (forall i repo, nth_error repositories i = Some repo ->
          exists shown,
            nth_error (cards_of grid) i = Some shown
            /\ get repo "name" = Normal (repo_name shown)
            /\ get repo "html_url" = Normal (repo_link shown)
            /\ get repo "stargazers_count" = Normal (repo_stars shown)
            /\ get repo "forks_count" = Normal (repo_forks shown)).
Proof.
  intros Hall.
  apply (listing_readable "repos" repo_card_of
           (fun repo =>
              plain_fields ["id"; "html_url"; "name"; "description"; "language";
                            "stargazers_count"; "forks_count"] repo = true)
           (fun _ repo shown =>
              get repo "name" = Normal (repo_name shown)
              /\ get repo "html_url" = Normal (repo_link shown)
              /\ get repo "stargazers_count" = Normal (repo_stars shown)
              /\ get repo "forks_count" = Normal (repo_forks shown))
           (fun shown => mount_repo shown = Normal tt));
    [| exact Hall].
  intros i v Hv. unfold repo_card_of.
  destruct (plain_field _ _ "id" Hv) as [x1 [H1 P1]]; [cbn; auto |].
  destruct (plain_field _ _ "html_url" Hv) as [x2 [H2 P2]]; [cbn; auto |].
  destruct (plain_field _ _ "name" Hv) as [x3 [H3 P3]]; [cbn; auto |].
  destruct (plain_field _ _ "description" Hv) as [d [Hd Pd]]; [cbn; auto 6 |].
  destruct (plain_field _ _ "language" Hv) as [l [Hl Pl]]; [cbn; auto 6 |].
  destruct (plain_field _ _ "stargazers_count" Hv) as [x6 [H6 P6]];
    [cbn; auto 7 |].
  destruct (plain_field _ _ "forks_count" Hv) as [x7 [H7 P7]]; [cbn; auto 8 |].
  destruct (js_or_plain v d "description" "No description." Hd Pd)
    as [x4 [H4 P4]].
  destruct (js_or_plain v l "language" "N/A" Hl Pl) as [x5 [H5 P5]].
  destruct (primitive_key x1 P1) as [key Hkey].
  rewrite H1, H2, H3. cbn [bind_completion]. rewrite H4. cbn [bind_completion].
  rewrite H5. cbn [bind_completion]. rewrite H6, H7. cbn [bind_completion].
  rewrite Hkey. cbn [bind_completion].
  eexists. split; [reflexivity |]. cbn.
  split; [repeat split |].
  unfold mount_repo.
  cbn [repo_name repo_link repo_description repo_language repo_stars repo_forks].
  rewrite (primitive_child x3 P3), (primitive_attribute x2 P2),
          (primitive_child x4 P4), (primitive_child x5 P5),
          (primitive_child x6 P6), (primitive_child x7 P7).
  reflexivity.
Qed.

(** With a profile, suggestions and repositories whose drawn fields are all
    primitives, the results panel is drawn: evaluating its JSX and mounting
    it throw nothing, and it has one suggestion card per suggestion and one
    repository card per repository, in the order stored, each showing the
    fields of its entry; nothing is cut or reordered. *)
Theorem results_panel_draws_every_entry
        (r : results) (ideas repositories : list value) :
  plain_fields ["avatar_url"; "login"; "name"; "bio"] (shown_profile r) = true ->
  shown_suggestions r = JArr ideas ->
  shown_repos r = JArr repositories ->
  Forall (fun s => plain_fields ["title"; "markdown"] s = true) ideas ->
  Forall (fun repo =>
            plain_fields ["id"; "html_url"; "name"; "description"; "language";
                          "stargazers_count"; "forks_count"] repo = true)
         repositories ->
  exists m,
    results_markup_of r = Normal m
    /\ mount m = Normal tt
    /\ List.length (cards_of (suggestion_list m)) = List.length ideas
    /\ List.length (cards_of (repo_grid m)) = List.length repositories
    /\ (forall i s, nth_error ideas i = Some s ->
          exists shown,
            nth_error (cards_of (suggestion_list m)) i = Some shown
            /\ get s "title" = Normal (suggestion_title shown)
            /\ get s "markdown" = Normal (snippet shown))
    /\ (forall i repo, nth_error repositories i = Some repo ->
          exists shown,
            nth_error (cards_of (repo_grid m)) i = Some shown
            /\ get repo "name" = Normal (repo_name shown)
            /\ get repo "html_url" = Normal (repo_link shown)
            /\ get repo "stargazers_count" = Normal (repo_stars shown)
            /\ get repo "forks_count" = Normal (repo_forks shown)).
Proof.
  intros Hprofile Hideas Hrepos Hall_ideas Hall_repos.
  unfold results_markup_of. rewrite Hideas, Hrepos.
  destruct (profile_card_plain _ Hprofile) as [pc [-> Hpc]].
  cbn [bind_completion].
  destruct (suggestion_cards_plain (shown_copied r) ideas Hall_ideas)
    as [section [-> [Hlen [Hmount Hnth]]]].
  cbn [bind_completion].
  destruct (repo_cards_plain repositories Hall_repos)
    as [grid [-> [Hlen' [Hmount' Hnth']]]].
  cbn [bind_completion]. eexists. split; [reflexivity |].
  split.
  { unfold mount. cbn [card suggestion_list repo_grid]. rewrite Hpc.
    cbn [bind_completion]. rewrite (each_accepted _ _ Hmount).
    cbn [bind_completion]. apply each_accepted, Hmount'. }
  cbn [suggestion_list repo_grid].
  split; [exact Hlen |]. split; [exact Hlen' |]. split; [exact Hnth | exact Hnth'].
Qed.

(** What holds of every card a mapping produced holds of the cards it
    returned. *)
Lemma map_indexed_cards {A} (f : nat -> value -> completion A)
      (P : nat -> A -> Prop) (items : list value) (index : nat) (cards : list A) :
  (forall i v y, f i v = Normal y -> P i y) ->
  map_indexed f index items = Normal cards ->
  forall i y, nth_error cards i = Some y -> P (index + i)%nat y.
Proof.
  intros Hf. revert index cards.
  induction items as [| item rest IH]; intros index cards; cbn.
  - intros [= <-] [| i] y H; discriminate H.
  - destruct (f index item) as [y0 | e] eqn:Hy0; cbn; [| discriminate].
    destruct (map_indexed f (S index) rest) as [ys | e] eqn:Hys; cbn;
      [| discriminate].
    intros [= <-] [| i] y H; cbn in H.
    + injection H as <-. rewrite Nat.add_0_r. exact (Hf _ _ _ Hy0).
    + replace (index + S i)%nat with (S index + i)%nat by lia.
      exact (IH (S index) ys Hys i y H).
Qed.

Lemma listing_cards {A} (expr : string) (v : value)
      (f : nat -> value -> completion A) (P : nat -> A -> Prop)
      (section : option (list A)) :
  (forall i v y, f i v = Normal y -> P i y) ->
  listing expr v f = Normal section ->
  forall i y, nth_error (cards_of section) i = Some y -> P i y.
Proof.
  intros Hf. unfold listing.
  destruct (get v "length") as [len | e]; cbn; [| discriminate].
  destruct (exceeds_zero len) as [[|] | e]; cbn; try discriminate.
  - destruct v; try discriminate.
    destruct (map_indexed f O items) as [cards | e] eqn:Hcards; cbn;
      [| discriminate].
    intros [= <-]. cbn. intros i y H.
    exact (map_indexed_cards f P items O cards Hf Hcards i y H).
  - intros [= <-] [| i] y H; discriminate H.
Qed.

(** The card at a position of a mapping comes from the item at that
    position. *)
Lemma map_indexed_source {A} (f : nat -> value -> completion A)
      (items : list value) (index : nat) (cards : list A) :
  map_indexed f index items = Normal cards ->
  forall i y, nth_error cards i = Some y ->
              exists v, nth_error items i = Some v
                        /\ f (index + i)%nat v = Normal y.
Proof.
  revert index cards.
  induction items as [| item rest IH]; intros index cards; cbn.
  - intros [= <-] [| i] y H; discriminate H.
  - destruct (f index item) as [y0 | e] eqn:Hy0; cbn; [| discriminate].
    destruct (map_indexed f (S index) rest) as [ys | e] eqn:Hys; cbn;
      [| discriminate].
    intros [= <-] [| i] y H; cbn in H.
    + injection H as <-. exists item. rewrite Nat.add_0_r.
      split; [reflexivity | exact Hy0].
    + replace (index + S i)%nat with (S index + i)%nat by lia.
      exact (IH (S index) ys Hys i y H).
Qed.

Lemma listing_source {A} (expr : string) (v : value)
      (f : nat -> value -> completion A) (section : option (list A)) :
  listing expr v f = Normal section ->
  forall i y, nth_error (cards_of section) i = Some y ->
              exists items s, v = JArr items /\ nth_error items i = Some s
                              /\ f i s = Normal y.
Proof.
  unfold listing.
  destruct (get v "length") as [len | e]; cbn; [| discriminate].
  destruct (exceeds_zero len) as [[|] | e]; cbn; try discriminate.
  - destruct v; try discriminate.
    destruct (map_indexed f O items) as [cards | e] eqn:Hcards; cbn;
      [| discriminate].
    intros [= <-]. cbn. intros i y H.
    destruct (map_indexed_source f items O cards Hcards i y H) as [s [Hs Hy]].
    exists items, s. split; [reflexivity |]. split; [exact Hs | exact Hy].
  - intros [= <-] [| i] y H; discriminate H.
Qed.

(** Whenever the results panel renders, the bio line, and the description
    and the language of every repository card, are truthy: an absent or
    empty field is replaced by its fallback text and never drawn empty. *)
Theorem fallback_texts_fill_empty_fields (r : results) (m : results_markup) :
  results_markup_of r = Normal m ->
  truthy (bio_line (card m)) = true
  /\ forall i shown,
       nth_error (cards_of (repo_grid m)) i = Some shown ->
       truthy (repo_description shown) = true
       /\ truthy (repo_language shown) = true.
Proof.
  unfold results_markup_of.
  destruct (profile_card_of (shown_profile r)) as [pc | e] eqn:Hpc;
    cbn [bind_completion]; [| discriminate].
  destruct (listing "suggestions" (shown_suggestions r)
                    (suggestion_card_of (shown_copied r))) as [ideas | e];
    cbn [bind_completion]; [| discriminate].
  destruct (listing "repos" (shown_repos r) repo_card_of) as [grid | e] eqn:Hgrid;
    cbn [bind_completion]; [| discriminate].
  intros [= <-]. cbn. split.
  - unfold profile_card_of in Hpc.
    destruct (get (shown_profile r) "avatar_url"); cbn in Hpc; [| discriminate].
    destruct (get (shown_profile r) "login"); cbn in Hpc; [| discriminate].
    destruct (js_or (get (shown_profile r) "name") (Normal a0)); cbn in Hpc;
      [| discriminate].
    unfold js_or in Hpc.
    destruct (get (shown_profile r) "bio") as [bio | e]; cbn in Hpc;
      [| discriminate].
    destruct (truthy bio) eqn:Hbio; cbn in Hpc; injection Hpc as <-; cbn;
      [exact Hbio | reflexivity].
  - apply (listing_cards "repos" (shown_repos r) repo_card_of
             (fun _ shown => truthy (repo_description shown) = true
                             /\ truthy (repo_language shown) = true)
             grid); [| exact Hgrid].
    intros i v y. unfold repo_card_of, js_or.
    destruct (get v "id") as [id | e]; cbn; [| discriminate].
    destruct (get v "html_url"); cbn; [| discriminate].
    destruct (get v "name"); cbn; [| discriminate].
    destruct (get v "description") as [d | e]; cbn; [| discriminate].
    destruct (truthy d) eqn:Hd; cbn;
      (destruct (get v "language") as [l | e]; cbn; [| discriminate]);
      (destruct (truthy l) eqn:Hl; cbn);
      (destruct (get v "stargazers_count"); cbn; [| discriminate]);
      (destruct (get v "forks_count"); cbn; [| discriminate]);
      (destruct (key_of id); cbn; [| discriminate]);
      intros [= <-]; cbn; split; auto.
Qed.

Lemma copy_label_copied (copied : option nat) (index : nat) :
  copy_label_for copied index = "Copied!" <-> copied = Some index.
Proof.
  unfold copy_label_for. destruct copied as [i |]; [| split; discriminate].
  destruct (Nat.eqb_spec i index) as [-> | Hneq].
  - split; reflexivity.
  - split; [discriminate | intros [= H]; contradiction].
Qed.

(** Whenever the results panel renders, the card at position [i] of the
    suggestion list carries the key [i], and it is labelled as copied exactly
    when the copied index is [i]: at most one card shows the mark. *)
Theorem copied_mark_is_on_one_card
        (r : results) (m : results_markup) (i : nat) (shown : suggestion_card) :
  results_markup_of r = Normal m ->
  nth_error (cards_of (suggestion_list m)) i = Some shown ->
  suggestion_key shown = i
  /\ (copy_label shown = "Copied!" <-> shown_copied r = Some i).
Proof.
  unfold results_markup_of.
  destruct (profile_card_of (shown_profile r)) as [pc | e];
    cbn [bind_completion]; [| discriminate].
  destruct (listing "suggestions" (shown_suggestions r)
                    (suggestion_card_of (shown_copied r))) as [ideas | e] eqn:Hideas;
    cbn [bind_completion]; [| discriminate].
  destruct (listing "repos" (shown_repos r) repo_card_of) as [grid | e];
    cbn [bind_completion]; [| discriminate].
  intros [= <-]. cbn. revert i shown.
  apply (listing_cards "suggestions" (shown_suggestions r)
           (suggestion_card_of (shown_copied r))
           (fun i shown =>
              suggestion_key shown = i
              /\ (copy_label shown = "Copied!" <-> shown_copied r = Some i))
           ideas); [| exact Hideas].
  intros i v y. unfold suggestion_card_of.
  destruct (get v "title"); cbn; [| discriminate].
  destruct (get v "markdown"); cbn; [| discriminate].
  intros [= <-]. cbn. split; [reflexivity | apply copy_label_copied].
Qed.

(** A [null] entry makes the mapping throw. *)
Lemma map_indexed_null {A} (f : nat -> value -> completion A)
      (items : list value) (index : nat) :
  (forall i, exists e, f i JNull = Abrupt e) ->
  In JNull items ->
  exists e, map_indexed f index items = Abrupt e.
Proof.
  intros Hf. revert index.
  induction items as [| item rest IH]; intros index Hin; [contradiction |].
  cbn. destruct Hin as [-> | Hin].
  - destruct (Hf index) as [e ->]. exists e. reflexivity.
  - destruct (f index item) as [y | e]; cbn; [| exists e; reflexivity].
    destruct (IH (S index) Hin) as [e ->]. exists e. reflexivity.
Qed.

(** Suggestions that are [null], a non-empty string, or an array with a
    [null] entry make the render of the results panel throw. *)
Lemma unreadable_suggestions_throw (st : UIState) :
  isLoading st = false ->
  truthy (userData st) = true ->
  suggestions st = JNull
  \/ (exists s, suggestions st = JStr s /\ s <> "")
  \/ (exists items, suggestions st = JArr items /\ In JNull items) ->
  exists e, markup st = Abrupt e.
Proof.
  intros Hidle Hprofile Hbad.
  assert (Hthrow : exists e, results_markup_of
                               (mkResults (userData st) (suggestions st) (repos st)
                                          (copiedIndex st)) = Abrupt e).
  { unfold results_markup_of.
    cbn [shown_profile shown_suggestions shown_repos shown_copied].
    destruct (profile_card_of (userData st)) as [pc | e]; cbn [bind_completion];
      [| exists e; reflexivity].
    destruct Hbad as [-> | [[s [-> Hs]] | [items [-> Hin]]]].
    - eexists. reflexivity.
    - unfold listing. cbn -[Z.of_nat number_of_Z positive_number string_length].
      destruct (string_length_positive s Hs) as [n ->].
      rewrite length_positive. eexists. reflexivity.
    - unfold listing. cbn -[Z.of_nat number_of_Z positive_number].
      destruct items as [| item rest]; [contradiction |].
      cbn [List.length]. rewrite length_positive.
      destruct (map_indexed_null (suggestion_card_of (copiedIndex st))
                                 (item :: rest) O)
        as [e He]; [| exact Hin |].
      + intros i. eexists. reflexivity.
      + rewrite He. exists e. reflexivity. }
  destruct Hthrow as [e He]. exists e.
  unfold markup, render. cbn [results_panel]. rewrite Hidle, Hprofile.
  cbn [negb andb]. rewrite He. reflexivity.
Qed.

(** A generated content that parses, as far as [JSON.parse] is concerned,
    into [null], a non-empty string or an array with a [null] entry is
    stored as the suggestions without an error, and the render that follows
    throws: the page breaks instead of showing a message. *)
Theorem unreadable_content_breaks_the_render
        (c : UIState) (code1 code2 code3 : Z)
        (profile repositories result text parsed : value) (prompt : prompt_data)
        (address : string) :
  username c <> "" ->
  200 <= code1 <= 299 ->
  200 <= code2 <= 299 ->
  200 <= code3 <= 299 ->
  repositories_address profile = Normal address ->
  prompt_of profile repositories = Normal prompt ->
  content_guard result = Normal text ->
  truthy text = true ->
  parse_text text = Normal parsed ->
  truthy profile = true ->
  parsed = JNull
  \/ (exists s, parsed = JStr s /\ s <> "")
  \/ (exists items, parsed = JArr items /\ In JNull items) ->
  let o := analyze c [success code1 profile; success code2 repositories;
                      success code3 result] in
  ended o = Completed
  /\ error (final o) = None
  /\ suggestions (final o) = parsed
  /\ exists e, markup (final o) = Abrupt e.
Proof.
  intros Hquery H1 H2 H3 Haddress Hprompt Hguard Htext Hparse Hprofile Hbad.
  unfold success at 3. cbv zeta.
  rewrite (through_generation c code1 code2 profile repositories prompt
             address (mkResponse code3 (Normal result)) []
             Hquery H1 H2 Haddress Hprompt).
  cbv zeta.
  rewrite (accept_parsed c [] _ code3 result text parsed H3 Hguard Htext Hparse).
  cbn [final ended error suggestions].
  split; [reflexivity |]. split; [reflexivity |]. split; [reflexivity |].
  apply unreadable_suggestions_throw; [reflexivity | exact Hprofile | exact Hbad].
Qed.

End MarkupProperties.

(** ** Typing while an analysis is in flight *)

Section Typing.
Context {engine : Engine}.

Lemma sync_keeps_query (p : prog unit) (st : UIState) :
  never_calls sets_query_or_copied p ->
  match snd (sync p st) with
  | Waiting _ k => forall settled, never_calls sets_query_or_copied (k settled)
  | _ => True
  end.
Proof.
  revert st. induction p as [a | e | c k IH | r k IH]; cbn; intros st Hp.
  - exact I.
  - exact I.
  - apply IH, Hp.
  - exact Hp.
Qed.

(** A handler that never sets the query runs the same way whether the text
    is typed before or after it. *)
Lemma sync_after_typing (p : prog unit) (text : string) (st : UIState) :
  never_calls sets_query_or_copied p ->
  sync p (apply_call (SetUsername text) st)
  = (apply_call (SetUsername text) (fst (sync p st)), snd (sync p st)).
Proof.
  revert st. induction p as [a | e | c k IH | r k IH]; cbn; intros st Hp;
    try reflexivity.
  destruct Hp as [Hc Hk].
  transitivity (sync k (apply_call (SetUsername text) (apply_call c st)));
    [| apply IH, Hk].
  f_equal. destruct c; try reflexivity; discriminate Hc.
Qed.

Lemma start_keeps_query (p : prog unit) (c : controller) :
  never_calls sets_query_or_copied p ->
  flights_keep_query c -> flights_keep_query (start p c).
Proof.
  intros Hp Hc. unfold start, flights_keep_query.
  pose proof (sync_keeps_query p (ui c) Hp) as Hk.
  destruct (sync p (ui c)) as [st' [| e | r k]]; cbn in *; try exact Hc.
  apply Forall_app. split; [exact Hc |].
  constructor; [exact Hk | constructor].
Qed.

Lemma handler_keeps_query (st : UIState) (ev : event) :
  match ev with
  | Change _ => True
  | _ => never_calls sets_query_or_copied (handler st ev)
  end.
Proof.
  destruct ev as [text | | key]; cbn; [exact I | |].
  - destruct (isLoading st); [exact I | apply handleAnalyze_keeps_query_and_copied].
  - destruct (String.eqb key "Enter");
      [apply handleAnalyze_keeps_query_and_copied | exact I].
Qed.

Lemma step_keeps_query (c c' : controller) :
  flights_keep_query c -> step c c' -> flights_keep_query c'.
Proof.
  intros Hc Hstep. destruct Hstep as [c0 ev | c0 i x].
  - unfold dispatch. pose proof (handler_keeps_query (ui c0) ev) as Hev.
    destruct ev as [text | | key]; try (apply start_keeps_query; assumption).
    unfold start, flights_keep_query. cbn. exact Hc.
  - unfold settle.
    destruct (nth_error (in_flight c0) i) as [[r k] |] eqn:Hnth; [| exact Hc].
    assert (Hk : forall settled, never_calls sets_query_or_copied (k settled)).
    { unfold flights_keep_query in Hc. rewrite Forall_forall in Hc.
      exact (Hc (r, k) (nth_error_In _ _ Hnth)). }
    apply start_keeps_query; [apply Hk |].
    unfold flights_keep_query in *. cbn.
    apply Forall_app. split.
    + rewrite Forall_forall in *. intros f Hf. apply Hc.
      rewrite <- (firstn_skipn i (in_flight c0)). apply in_or_app. left. exact Hf.
    + rewrite Forall_forall in *. intros f Hf. apply Hc.
      rewrite <- (firstn_skipn (S i) (in_flight c0)). apply in_or_app. right. exact Hf.
Qed.

Lemma reachable_keeps_query (c : controller) :
  reachable c -> flights_keep_query c.
Proof.
  induction 1 as [| c c' _ IH Hstep].
  - constructor.
  - exact (step_keeps_query c c' IH Hstep).
Qed.

(** On every page a visitor can reach, typing in the query field while an
    analysis is in flight neither cancels nor redirects it: a request that
    settles after the text was typed has the effect it would have had
    before, and the text typed stays in the field. *)
Theorem typing_does_not_redirect_an_analysis
        (c : controller) (text : string) (i : nat) (x : fetch_result) :
  reachable c ->
  settle i x (dispatch (Change text) c) = dispatch (Change text) (settle i x c).
Proof.
  intros Hreach. pose proof (reachable_keeps_query c Hreach) as Hc.
  assert (Htyped : forall c0, dispatch (Change text) c0
                              = mkController (apply_call (SetUsername text) (ui c0))
                                             (in_flight c0))
    by reflexivity.
  rewrite !Htyped. unfold settle. cbn [ui in_flight].
  destruct (nth_error (in_flight c) i) as [[r k] |] eqn:Hnth; [| reflexivity].
  assert (Hk : never_calls sets_query_or_copied (k x)).
  { unfold flights_keep_query in Hc. rewrite Forall_forall in Hc.
    exact (Hc (r, k) (nth_error_In _ _ Hnth) x). }
  unfold start. cbn [ui in_flight].
  rewrite (sync_after_typing (k x) text (ui c) Hk).
  destruct (sync (k x) (ui c)) as [st' [| e | r' k']]; reflexivity.
Qed.

End Typing.

(** ** Which box, which panels *)

Lemma prefix_iff (pattern s : string) :
  String.prefix pattern s = true <-> exists rest, s = pattern ++ rest.
Proof.
  revert s. induction pattern as [| a pattern IH]; intros s; cbn.
  - destruct s; split; intros; eauto.
  - destruct s as [| b s]; cbn.
    + split; [discriminate | intros [rest H]; discriminate H].
    + destruct (ascii_dec a b) as [-> | Hneq].
      * rewrite IH. split; intros [rest H]; exists rest; congruence.
      * split; [discriminate | intros [rest H]; congruence].
Qed.

Lemma includes_iff (pattern s : string) :
  includes pattern s = true <-> exists before rest, s = before ++ pattern ++ rest.
Proof.
  induction s as [| ch s IH].
  - cbn -[String.prefix]. destruct (String.prefix pattern "") eqn:Hp.
    + apply prefix_iff in Hp as [rest Hrest].
      split; [intros _; exists "", rest; exact Hrest | reflexivity].
    + split; [discriminate |]. intros [before [rest H]].
      destruct before; cbn in H; [| discriminate H].
      assert (String.prefix pattern "" = true) by (apply prefix_iff; eauto).
      congruence.
  - cbn -[String.prefix]. destruct (String.prefix pattern (String ch s)) eqn:Hp.
    + apply prefix_iff in Hp as [rest Hrest].
      split; [intros _; exists "", rest; exact Hrest | reflexivity].
    + rewrite IH. split.
      * intros [before [rest H]]. exists (String ch before), rest.
        cbn. rewrite H. reflexivity.
      * intros [before [rest H]]. destruct before as [| b before]; cbn in H.
        -- assert (String.prefix pattern (String ch s) = true)
             by (apply prefix_iff; eauto).
           congruence.
        -- injection H as _ H. exists before, rest. exact H.
Qed.

(** The restricted box is drawn exactly for the messages that contain the
    words [API key restrictions]; every other non-empty message gets the
    alarming box, and the empty message none. *)
Theorem restricted_box_iff_message_contains_words (msg : string) :
  (renderError (Some msg) = Some (Restricted, msg)
   <-> exists before rest, msg = before ++ "API key restrictions" ++ rest)
  /\ (renderError (Some msg) = Some (Alarming, msg)
      <-> msg <> ""
          /\ ~ exists before rest, msg = before ++ "API key restrictions" ++ rest)
  /\ (renderError (Some msg) = None <-> msg = "").
Proof.
  rewrite <- includes_iff. unfold renderError.
  destruct msg as [| a msg].
  - cbn. repeat split; try discriminate; try congruence.
    intros [H _]. congruence.
  - cbn -[includes].
    destruct (includes "API key restrictions" (String a msg)).
    + repeat split; try discriminate; try congruence.
      intros [_ H]. congruence.
    + repeat split; try discriminate; try congruence.
Qed.

Section DrawnPage.
Context {engine : Engine}.


End DrawnPage.

(** ** The copy button of a suggestion *)

Section CopyButton.
Context {engine : Engine}.

(** On a page whose results panel is drawn, the copy button of the card at
    position [i] belongs to the suggestion stored at position [i]: a click
    on it puts that suggestion's own markdown in the textarea that is copied
    from, and marks position [i] as copied. *)
Theorem copy_button_copies_its_own_snippet
        (p : page) (m : results_markup) (i : nat) (shown : suggestion_card)
        (stored : string) (done : bool) :
  markup (cells p) = Normal (Some m) ->
  nth_error (cards_of (suggestion_list m)) i = Some shown ->
  textarea_value (snippet shown) = Normal stored ->
  (exists ideas s,
      suggestions (cells p) = JArr ideas
      /\ nth_error ideas i = Some s
      /\ get s "markdown" = Normal (snippet shown))
  /\ exists p',
       click_copy (Returned done) i p = Normal p'
       /\ document_log p'
          = (document_log p ++ [Appended stored; Selected; Commanded; Removed])%list
       /\ copiedIndex (cells p') = Some i.
Proof.
  intros Hmarkup Hshown Hstored. split.
  - unfold markup, render in Hmarkup. cbn [results_panel] in Hmarkup.
    destruct (negb (isLoading (cells p)) && truthy (userData (cells p)));
      [| discriminate Hmarkup].
    unfold results_markup_of in Hmarkup.
    cbn [shown_profile shown_suggestions shown_repos shown_copied] in Hmarkup.
    destruct (profile_card_of (userData (cells p))) as [pc | e];
      cbn [bind_completion] in Hmarkup; [| discriminate Hmarkup].
    destruct (listing "suggestions" (suggestions (cells p))
                      (suggestion_card_of (copiedIndex (cells p))))
      as [section | e] eqn:Hsection;
      cbn [bind_completion] in Hmarkup; [| discriminate Hmarkup].
    destruct (listing "repos" (repos (cells p)) repo_card_of) as [grid | e];
      cbn [bind_completion] in Hmarkup; [| discriminate Hmarkup].
    destruct (mount (mkMarkup pc section grid)) as [[] | e];
      cbn [bind_completion] in Hmarkup; [| discriminate Hmarkup].
    injection Hmarkup as <-. cbn [suggestion_list] in Hshown.
    destruct (listing_source _ _ _ _ Hsection i shown Hshown)
      as [ideas [s [Hideas [Hs Hcard]]]].
    exists ideas, s. split; [exact Hideas |]. split; [exact Hs |].
    unfold suggestion_card_of in Hcard.
    destruct (get s "title") as [title | e]; cbn in Hcard; [| discriminate Hcard].
    destruct (get s "markdown") as [md | e]; cbn in Hcard; [| discriminate Hcard].
    injection Hcard as <-. reflexivity.
  - unfold click_copy. rewrite Hmarkup.
    destruct (suggestion_list m) as [cards |]; cbn [cards_of] in Hshown;
      [| destruct i; discriminate Hshown].
    rewrite Hshown. unfold handleCopyToClipboard. rewrite Hstored. cbn.
    eexists. split; [reflexivity |]. cbn. split; [| reflexivity].
    rewrite <- app_assoc. reflexivity.
Qed.

End CopyButton.

(** * More runs on the reference engine *)

Module MoreRuns.

Import Sample Examples.


(** Two pages showing a profile for the same query give the same run. *)
Lemma analysis_independent_of_previous_cycle_witness :
  run_analysis other_results [failure 404]
  = run_analysis showing_results [failure 404].
Proof.
  apply (analysis_independent_of_previous_cycle (engine := Reference.engine)
           showing_results other_results [failure 404]).
  - discriminate.
  - reflexivity.
  - reflexivity.
  - reflexivity.
Defined.

(** The profile request for [octocat] answered 404. *)
Lemma profile_not_found_witness :
  run_analysis (typed "octocat") [failure 404]
  = mkOutcome
      (mkState "octocat" JNull (JArr []) (JArr []) false
               (Some "GitHub user not found.") None)
      [GET "https://api.github.com/users/octocat"] Completed
  /\ render (final (run_analysis (typed "octocat") [failure 404]))
     = mkView false false false (Some (Alarming, "GitHub user not found.")) None.
Proof.
  apply (profile_not_found (engine := Reference.engine)
           (typed "octocat") (Normal JNull) []).
  discriminate.
Defined.

Lemma profile_failure_names_status_witness :
  carries_status (fun code => run_analysis (typed "octocat") [failure code]).
Proof.
  apply (profile_failure_names_status (engine := Reference.engine)
           (typed "octocat") (Normal JNull) []).
  discriminate.
Defined.

(** The network is down at the profile request. *)
Lemma rejected_fetch_is_reported_witness :
  error (final (run_analysis (typed "octocat") [Rejected network_down]))
  = Some "Failed to fetch"
  /\ sent (run_analysis (typed "octocat") [Rejected network_down])
     = [GET "https://api.github.com/users/octocat"].
Proof.
  destruct (rejected_fetch_is_reported (engine := Reference.engine)
              (typed "octocat") network_down 200 200 profile two_repos
              octocat_prompt repos_address [])
    as [Hfirst _].
  - discriminate.
  - lia.
  - lia.
  - reflexivity.
  - reflexivity.
  - unfold run_analysis. rewrite Hfirst. split; reflexivity.
Defined.

Lemma generation_failure_names_status_witness :
  carries_status
    (fun code => run_analysis (typed "octocat")
                              [success 200 profile; success 200 two_repos;
                               failure code]).
Proof.
  apply (generation_failure_names_status (engine := Reference.engine)
           (typed "octocat") 200 200 profile two_repos octocat_prompt
           repos_address (Normal JNull) []).
  - discriminate.
  - lia.
  - lia.
  - reflexivity.
  - reflexivity.
Defined.

(** A second analysis, from the results page, whose generation call is
    answered 403. *)
Lemma showing_page_keeps_fetched_data_witness :
  userData (final (run_analysis showing_results
                                [success 200 profile; success 200 eleven_repos;
                                 failure 403])) = profile
  /\ repos (final (run_analysis showing_results
                                [success 200 profile; success 200 eleven_repos;
                                 failure 403])) = eleven_repos.
Proof.
  apply (showing_page_keeps_fetched_data (engine := Reference.engine)
           showing_results 200 200 profile eleven_repos repos_address
           [failure 403]).
  - discriminate.
  - lia.
  - lia.
  - reflexivity.
  - reflexivity.
Defined.

(** The same on a fresh page. *)
Lemma page_without_profile_keeps_data_only_on_success_witness :
  userData (final (run_analysis (typed "octocat")
                                [success 200 profile; success 200 two_repos;
                                 failure 403])) = JNull
  /\ repos (final (run_analysis (typed "octocat")
                                [success 200 profile; success 200 two_repos;
                                 failure 403])) = JArr [].
Proof.
  exact (page_without_profile_keeps_data_only_on_success
           (engine := Reference.engine)
           (typed "octocat") 200 200 profile two_repos repos_address
           [failure 403]
           ltac:(discriminate) ltac:(lia) ltac:(lia) eq_refl eq_refl).
Defined.

Lemma blocked_content_reported_witness :
  error (final (run_analysis (typed "octocat")
                             [success 200 profile; success 200 two_repos;
                              success 200 (blocked "SAFETY")]))
  = Some "AI content blocked: SAFETY".
Proof.
  apply (blocked_content_reported (engine := Reference.engine)
           (typed "octocat") 200 200 200 profile two_repos
           (blocked "SAFETY") JUndefined (JStr "SAFETY") octocat_prompt
           repos_address "SAFETY").
  - discriminate.
  - lia.
  - lia.
  - lia.
  - reflexivity.
  - reflexivity.
  - reflexivity.
  - reflexivity.
  - reflexivity.
  - reflexivity.
  - reflexivity.
Defined.

Lemma no_suggestions_reported_witness :
  error (final (run_analysis (typed "octocat")
                             [success 200 profile; success 200 two_repos;
                              success 200 empty_answer]))
  = Some "AI failed to generate valid suggestions.".
Proof.
  apply (no_suggestions_reported (engine := Reference.engine)
           (typed "octocat") 200 200 200 profile two_repos
           empty_answer JUndefined JUndefined octocat_prompt repos_address).
  - discriminate.
  - lia.
  - lia.
  - lia.
  - reflexivity.
  - reflexivity.
  - reflexivity.
  - reflexivity.
  - reflexivity.
  - reflexivity.
Defined.

Lemma missing_content_surfaces_type_error_witness :
  error (final (run_analysis (typed "octocat")
                             [success 200 profile; success 200 two_repos;
                              success 200 filtered]))
  = Some "Cannot read properties of undefined (reading 'parts')".
Proof.
  apply (missing_content_surfaces_type_error (engine := Reference.engine)
           (typed "octocat") 200 200 200 profile two_repos
           filtered octocat_prompt repos_address
           [("finishReason", JStr "SAFETY")] []).
  - discriminate.
  - lia.
  - lia.
  - lia.
  - reflexivity.
  - reflexivity.
  - reflexivity.
  - reflexivity.
Defined.

(** *** The controller *)

Lemma single_flight_by_button_witness :
  (List.length (in_flight clicked_octocat) <= 1)%nat
  /\ (isLoading (ui clicked_octocat) = true
      <-> List.length (in_flight clicked_octocat) = 1%nat).
Proof.
  apply (single_flight_by_button (engine := Reference.engine) clicked_octocat).
  eapply reach_step; [eapply reach_step; [apply reach_fresh | apply typing] |].
  apply clicking.
Defined.

Lemma enter_starts_analysis_witness :
  exists k,
    in_flight (dispatch (engine := Reference.engine) (KeyPress "Enter")
                        loading_octocat)
    = (in_flight loading_octocat
       ++ [(GET "https://api.github.com/users/octocat", k)])%list.
Proof.
  apply (enter_starts_analysis (engine := Reference.engine) loading_octocat).
  discriminate.
Defined.

Lemma typing_does_not_redirect_an_analysis_witness :
  settle 0 (success 200 profile)
         (dispatch (engine := Reference.engine) (Change "torvalds") loading_octocat)
  = dispatch (engine := Reference.engine) (Change "torvalds")
             (settle 0 (success 200 profile)
                     loading_octocat).
Proof.
  apply (typing_does_not_redirect_an_analysis (engine := Reference.engine)
           loading_octocat "torvalds" 0 (success 200 profile)).
  unfold loading_octocat.
  eapply reached_step; [eapply reached_step; [apply reached_fresh |] |];
    apply by_event.
Defined.

(** *** The copy handler *)

Lemma copy_marks_for_two_seconds_witness :
  exists p',
    handleCopyToClipboard (engine := Reference.engine) (Returned true)
                          (JStr "snippet") 0 results_page = Normal p'
    /\ copiedIndex (cells p') = Some 0%nat
    /\ (forall ms, 0 <= ms < 2000 -> copiedIndex (cells (wait ms p')) = Some 0%nat)
    /\ (forall ms, 2000 <= ms ->
                   copiedIndex (cells (wait ms p')) = None
                   /\ timers (wait ms p') = []).
Proof.
  apply (copy_marks_for_two_seconds (engine := Reference.engine)
           true (JStr "snippet") "snippet" 0 results_page).
  - reflexivity.
  - reflexivity.
Defined.

Lemma earlier_timer_clears_later_mark_witness :
  exists p1 p2,
    handleCopyToClipboard (engine := Reference.engine) (Returned true)
                          (JStr "first") 0 results_page = Normal p1
    /\ handleCopyToClipboard (engine := Reference.engine) (Returned true)
                             (JStr "second") 1 (wait 1500 p1) = Normal p2
    /\ copiedIndex (cells p2) = Some 1%nat
    /\ copiedIndex (cells (wait 500 p2)) = None
    /\ map due (timers (wait 500 p2)) = [3500].
Proof.
  apply (earlier_timer_clears_later_mark (engine := Reference.engine)
           true true (JStr "first") (JStr "second") "first" "second"
           0 1 1500 500 results_page).
  - reflexivity.
  - reflexivity.
  - reflexivity.
  - lia.
  - lia.
  - lia.
Defined.

Lemma copy_command_outcomes_witness :
  exists p',
    handleCopyToClipboard (engine := Reference.engine) (Raised network_down)
                          (JStr "snippet") 0 results_page = Normal p'
    /\ attached (document_log p') = 0
    /\ clock p' = 0
    /\ cells p' = showing_results
    /\ timers p' = []
    /\ document_log p'
       = [Appended "snippet"; Selected; Commanded; Reported network_down; Removed].
Proof.
  apply (copy_command_outcomes (engine := Reference.engine)
           (Raised network_down) (JStr "snippet") "snippet" 0 results_page).
  reflexivity.
Defined.

Lemma copy_and_time_touch_only_the_mark_witness :
  (forall ms, copy_timers (wait ms results_page)
              /\ same_but_copied showing_results (cells (wait ms results_page)))
  /\ (forall result text index p',
         handleCopyToClipboard (engine := Reference.engine) result text index
                               results_page = Normal p' ->
         copy_timers p' /\ same_but_copied showing_results (cells p')).
Proof.
  apply (copy_and_time_touch_only_the_mark (engine := Reference.engine)
           results_page).
  constructor.
Defined.

Lemma copy_button_copies_its_own_snippet_witness :
  (exists ideas s,
      suggestions (cells results_page) = JArr ideas
      /\ nth_error ideas 0 = Some s
      /\ get (engine := Reference.engine) s "markdown"
         = Normal (snippet first_card))
  /\ exists p',
       click_copy (engine := Reference.engine) (Returned true) 0 results_page
       = Normal p'
       /\ document_log p'
          = [Appended "![Ruby](https://skillicons.dev/icons?i=ruby)"; Selected;
             Commanded; Removed]
       /\ copiedIndex (cells p') = Some 0%nat.
Proof.
  apply (copy_button_copies_its_own_snippet (engine := Reference.engine)
           results_page results_drawn 0 first_card
           "![Ruby](https://skillicons.dev/icons?i=ruby)" true).
  - reflexivity.
  - reflexivity.
  - reflexivity.
Defined.

(** *** The results panel *)

Lemma results_panel_draws_every_entry_witness :
  exists m,
    results_markup_of (engine := Reference.engine) results_shown = Normal m
    /\ mount (engine := Reference.engine) m = Normal tt
    /\ List.length (cards_of (suggestion_list m)) = 1%nat
    /\ List.length (cards_of (repo_grid m)) = 2%nat.
Proof.
  destruct (results_panel_draws_every_entry (engine := Reference.engine)
              results_shown
              [JObj [("title", JStr "Show your stack");
                     ("markdown", JStr "![Ruby](https://skillicons.dev/icons?i=ruby)")]]
              [repo 1 "hello-world"; repo 2 "spoon-knife"])
    as [m [Hm [Hmount [Hideas [Hrepos _]]]]].
  - reflexivity.
  - reflexivity.
  - reflexivity.
  - repeat constructor.
  - repeat constructor.
  - exists m. split; [exact Hm |]. split; [exact Hmount |].
    split; [exact Hideas | exact Hrepos].
Defined.

Lemma unreadable_content_breaks_the_render_witness :
  let o := run_analysis showing_results
                        [success 200 profile; success 200 two_repos;
                         success 200 (generated "null")] in
  ended o = Completed
  /\ error (final o) = None
  /\ suggestions (final o) = JNull
  /\ exists e, markup (engine := Reference.engine) (final o) = Abrupt e.
Proof.
  apply (unreadable_content_breaks_the_render (engine := Reference.engine)
           showing_results 200 200 200 profile two_repos
           (generated "null") (JStr "null") JNull octocat_prompt repos_address).
  - discriminate.
  - lia.
  - lia.
  - lia.
  - reflexivity.
  - reflexivity.
  - reflexivity.
  - reflexivity.
  - reflexivity.
  - reflexivity.
  - left. reflexivity.
Defined.

Lemma fallback_texts_fill_empty_fields_witness :
  match results_markup_of (engine := Reference.engine) results_shown with
  | Normal m =>
      truthy (bio_line (card m)) = true
      /\ forall i shown,
           nth_error (cards_of (repo_grid m)) i = Some shown ->
           truthy (repo_description shown) = true
           /\ truthy (repo_language shown) = true
  | Abrupt _ => False
  end.
Proof.
  destruct (results_markup_of (engine := Reference.engine) results_shown)
    as [m | e] eqn:Hm.
  - apply (fallback_texts_fill_empty_fields (engine := Reference.engine)
             results_shown m Hm).
  - discriminate Hm.
Defined.

Lemma copied_mark_is_on_one_card_witness :
  match results_markup_of (engine := Reference.engine) results_shown with
  | Normal m =>
      forall shown,
        nth_error (cards_of (suggestion_list m)) 0 = Some shown ->
        suggestion_key shown = 0%nat
        /\ (copy_label shown = "Copied!" <-> shown_copied results_shown = Some 0%nat)
  | Abrupt _ => False
  end.
Proof.
  destruct (results_markup_of (engine := Reference.engine) results_shown)
    as [m | e] eqn:Hm.
  - intros shown Hshown.
    apply (copied_mark_is_on_one_card (engine := Reference.engine)
             results_shown m 0 shown Hm Hshown).
  - discriminate Hm.
Defined.

End MoreRuns.
